(** * A shallow embedding of the UITraps unified-input orchestrator

    The frontend hooks [useChat] (src/frontend/src/hooks/useAuth.ts) and
    [useUnifiedInput] (the four-question version at the end of
    src/frontend/src/hooks/useElapsedTime.ts), together with the API client
    defaults of src/unnamed/part_006, embedded as Rocq functions.

    - JavaScript strings are [String.string] (ASCII), numbers used as
      counters, clocks and timeouts are [N] / [Z].
    - React state is an explicit record; each [useCallback] becomes a
      function from the state at the time of the call to the next state.
    - An [async] function that suspends on a network call is split into its
      part before the [await] and its continuation, which receives the
      outcome of the network call. *)

From Stdlib Require Import String Ascii List Bool Arith NArith ZArith Lia.
From Stdlib Require Import Decimal DecimalN.
Import ListNotations.
Open Scope string_scope.

(* ------------------------------------------------------------------ *)
(** ** JavaScript string helpers *)

Module Js.

(** Characters removed by [String.prototype.trim] and matched by [\s]
    (the ASCII part: space, tab, LF, VT, FF, CR). *)
Definition is_space (c : ascii) : bool :=
  let n := nat_of_ascii c in
  Nat.eqb n 32 || Nat.eqb n 9 || Nat.eqb n 10 || Nat.eqb n 11 ||
  Nat.eqb n 12 || Nat.eqb n 13.

Fixpoint trim_start (s : string) : string :=
  match s with
  | EmptyString => EmptyString
  | String c r => if is_space c then trim_start r else s
  end.

Definition rev_string (s : string) : string :=
  string_of_list_ascii (List.rev (list_ascii_of_string s)).

(** [s.trim()] *)
Definition trim (s : string) : string :=
  rev_string (trim_start (rev_string (trim_start s))).

(** [s.trim().length > 0], i.e. the truthiness of a trimmed string. *)
Definition nonblank (s : string) : bool :=
  negb (String.eqb (trim s) "").

(** ASCII [toLowerCase]. *)
Definition lower_char (c : ascii) : ascii :=
  let n := nat_of_ascii c in
  if Nat.leb 65 n && Nat.leb n 90 then ascii_of_nat (n + 32)%nat else c.

Fixpoint to_lower (s : string) : string :=
  match s with
  | EmptyString => EmptyString
  | String c r => String (lower_char c) (to_lower r)
  end.

(** [s.includes(t)] *)
Fixpoint includes (s t : string) : bool :=
  String.prefix t s ||
  match s with
  | EmptyString => false
  | String _ r => includes r t
  end.

(** Decimal rendering of a non-negative integer, as [`${n}`] does. *)
Fixpoint uint_to_string (d : uint) : string :=
  match d with
  | Nil => ""
  | D0 d => String "0" (uint_to_string d)
  | D1 d => String "1" (uint_to_string d)
  | D2 d => String "2" (uint_to_string d)
  | D3 d => String "3" (uint_to_string d)
  | D4 d => String "4" (uint_to_string d)
  | D5 d => String "5" (uint_to_string d)
  | D6 d => String "6" (uint_to_string d)
  | D7 d => String "7" (uint_to_string d)
  | D8 d => String "8" (uint_to_string d)
  | D9 d => String "9" (uint_to_string d)
  end.

Definition show_N (n : N) : string := uint_to_string (N.to_uint n).

(** [arr.slice(-k)]: the last [k] elements; [slice(-0)] is [slice(0)],
    the whole array. *)
Definition slice_neg {A} (k : nat) (l : list A) : list A :=
  match k with
  | O => l
  | S _ => skipn (List.length l - k)%nat l
  end.

End Js.

(* ------------------------------------------------------------------ *)
(** ** [generateId] (useAuth.ts, the [useChat] part)

    [let messageIdCounter = 0;
     function generateId() { return `msg-${Date.now()}-${++messageIdCounter}`; }]

    The module-level counter is threaded explicitly; [now] is the value
    returned by [Date.now()] at the call. *)

Module MessageId.

Definition mk_id (now counter : N) : string :=
  "msg-" ++ Js.show_N now ++ "-" ++ Js.show_N counter.

(** One call: pre-increment the counter, then format. *)
Definition generateId (messageIdCounter now : N) : string * N :=
  let c := (messageIdCounter + 1)%N in (mk_id now c, c).

(** A run of calls at the clock readings [nows]. *)
Fixpoint generate_ids (messageIdCounter : N) (nows : list N) : list string * N :=
  match nows with
  | [] => ([], messageIdCounter)
  | t :: ts =>
      let (id, c) := generateId messageIdCounter t in
      let (ids, c') := generate_ids c ts in (id :: ids, c')
  end.

(** The counter components of the ids of a run. *)
Fixpoint counters (messageIdCounter : N) (nows : list N) : list N :=
  match nows with
  | [] => []
  | _ :: ts => (messageIdCounter + 1)%N :: counters (messageIdCounter + 1) ts
  end.

End MessageId.


(* ------------------------------------------------------------------ *)
(** ** Data model (src/frontend/src/api/types.ts and the hooks) *)

Module Unified.

Inductive Role := User | Assistant | System.
Inductive MessageMode := ModeChat | ModeAnalysis | ModeHybrid.
Inductive ContentType := Website | MobileApp | DesktopApp | Game.

Definition Role_eqb (a b : Role) : bool :=
  match a, b with
  | User, User | Assistant, Assistant | System, System => true
  | _, _ => false
  end.

(** A [File] is seen by the orchestrator only through its name. *)
Record File := mkFile { name : string }.

(** [ChatMessage]; [timestamp] is the [Date.now()] reading of its creation. *)
Record ChatMessage := mkMsg {
  id : string;
  role : Role;
  content : string;
  mode : MessageMode;
  sources : option (list string);
  timestamp : N;
  reportHtml : option string
}.

(** [UserContext] as built by [runAnalysis]. *)
Record UserContext := mkContext {
  ctx_users : string;
  ctx_expertise : string;
  ctx_tasks : string;
  ctx_format : string;
  ctx_contentType : ContentType
}.

(** The three estimate shapes of [UnifiedEstimate]; dollar amounts are
    kept in cents. *)
Inductive InputType := SingleImage | MultiImage | Video.

Record EstimateResponse := mkFileEst {
  fe_input_type : InputType;
  fe_file_count : nat;
  fe_total_size_mb : Z;
  fe_min_seconds : Z;
  fe_max_seconds : Z;
  fe_min_formatted : string;
  fe_max_formatted : string;
  fe_min_credits : Z;
  fe_max_credits : Z;
  fe_min_cents : Z;
  fe_max_cents : Z;
  fe_ffmpeg_available : bool
}.

Record FigmaEstimateResponse := mkFigmaEst {
  fg_file_name : string;
  fg_frame_count : Z;
  fg_has_prototype_flows : bool;
  fg_flow_count : Z;
  fg_min_seconds : Z;
  fg_max_seconds : Z;
  fg_time_description : string;
  fg_credits : Z;
  fg_cost_description : string;
  fg_figma_available : bool
}.

Record UrlEstimateResponse := mkUrlEst {
  ue_url : string;
  ue_estimated_pages : Z;
  ue_min_seconds : Z;
  ue_max_seconds : Z;
  ue_time_description : string;
  ue_credits : Z;
  ue_cost_description : string;
  ue_playwright_available : bool
}.

Inductive UnifiedEstimate :=
  | EstFiles (e : EstimateResponse)
  | EstFigma (e : FigmaEstimateResponse)
  | EstUrl (e : UrlEstimateResponse).

(** Phases. *)
Inductive ContextGatheringPhase :=
  | CGIdle | AskingUsers | AskingExpertise | AskingTasks | AskingFormat | CGComplete.

Inductive AnalysisPhase := APIdle | Estimating | Previewing | Analyzing | APComplete.

Inductive DetectedMode := MChat | MAnalysis | MHybrid | MIdle | MFigma | MUrl.

Inductive UrlType := UFigma | UUrl.

(** [useElapsedTime]: the stopwatch state. *)
Record ElapsedState := mkElapsed {
  elapsedTime : N;
  isRunning : bool;
  startTime : option N
}.

(** The network operations of the API client, and the requests the
    orchestrator issues (endpoint and credential are passed through
    unchanged and left out). No call site of the orchestrator passes a
    [timeout] or a [signal]. *)
Inductive Operation :=
  | OpAnalyzeImage | OpAnalyzeMultiImage | OpAnalyzeVideo | OpGetEstimate
  | OpSendChatMessage | OpUnifiedAsk | OpGetFigmaEstimate | OpGetUrlEstimate
  | OpAnalyzeFigma | OpAnalyzeUrl.

Definition History := list (Role * string).

Inductive Request :=
  | ReqChat (message : string) (history : History)
  | ReqUnifiedAsk (message : option string) (fs : list File) (ctx : UserContext)
      (history : History)
  | ReqEstimate (fs : list File)
  | ReqFigmaEstimate (url : string)
  | ReqUrlEstimate (url : string) (maxPages : Z)
  | ReqAnalyzeFigma (url : string) (ctx : UserContext) (maxFrames : Z)
  | ReqAnalyzeUrl (url : string) (ctx : UserContext) (maxPages : Z).

Definition request_op (r : Request) : Operation :=
  match r with
  | ReqChat _ _ => OpSendChatMessage
  | ReqUnifiedAsk _ _ _ _ => OpUnifiedAsk
  | ReqEstimate _ => OpGetEstimate
  | ReqFigmaEstimate _ => OpGetFigmaEstimate
  | ReqUrlEstimate _ _ => OpGetUrlEstimate
  | ReqAnalyzeFigma _ _ _ => OpAnalyzeFigma
  | ReqAnalyzeUrl _ _ _ => OpAnalyzeUrl
  end.

(** The response bodies the orchestrator reads. *)
Record AskBody := mkAskBody {
  ab_success : bool;
  ab_mode : MessageMode;
  ab_error : option string;
  ab_detail : option string;
  ab_report_html : option string
}.

(** One [onAnalysisComplete(result, fileNames)] call. *)
Record Completion := mkCompletion {
  cp_result : AskBody;
  cp_fileNames : list string
}.

(** What [fetch] delivers: the abort of the timeout controller, a
    transport failure, or an HTTP response with its JSON body. *)
Inductive FetchResult :=
  | FetchAbort
  | FetchNetworkError (msg : string)
  | FetchResponse (ok : bool) (status : N) (body : AskBody).

(** Settled value of a client function: a value or a thrown [Error]. *)
Inductive Outcome (A : Type) := Ok (a : A) | Err (msg : string).
Arguments Ok {A} a.
Arguments Err {A} msg.

(** The chat reply of [sendChatMessage]. *)
Record ChatApiResponse := mkChatResp {
  cr_response : string;
  cr_sources : list string;
  cr_mode : option MessageMode
}.

Record St := mkSt {
  inputText : string;
  files : list File;
  users : string;
  expertise : string;
  tasks : string;
  format : string;
  contentType : ContentType;
  contextGatheringPhase : ContextGatheringPhase;
  pendingQuestion : string;
  analysisPhase : AnalysisPhase;
  estimate : option UnifiedEstimate;
  pendingUrl : option string;
  elapsed : ElapsedState;
  isUnifiedLoading : bool;
  messages : list ChatMessage;
  chatIsLoading : bool;
  chatError : option string;
  messageIdCounter : N;
  clock : N;
  requests : list Request;
  completions : list Completion
}.

(** ** The orchestrator state and a state monad over it

    One record holds the React state of [useUnifiedInput], of the [useChat]
    and [useElapsedTime] hooks it composes, the module-level id counter,
    the [Date.now()] clock, and two logs of effects on the outside world:
    the network requests issued and the [onAnalysisComplete] calls. *)

Definition M (A : Type) := St -> A * St.

Definition ret {A} (a : A) : M A := fun s => (a, s).

Definition bind {A B} (m : M A) (k : A -> M B) : M B :=
  fun s => let (a, s') := m s in k a s'.

Definition get : M St := fun s => (s, s).

Declare Scope orch_scope.
Delimit Scope orch_scope with orch.
Notation "x <- m ;; k" := (bind m (fun x => k))
  (at level 61, m at next level, right associativity) : orch_scope.
Notation "m ;; k" := (bind m (fun _ => k))
  (at level 61, right associativity) : orch_scope.
Open Scope orch_scope.

(** Run a computation, keeping the final state. *)
Definition exec (m : M unit) (s : St) : St := snd (m s).

Definition setInputText (v : string) : M unit :=
  fun s => (tt, mkSt v (files s) (users s) (expertise s) (tasks s) (format s) (contentType s) (contextGatheringPhase s) (pendingQuestion s) (analysisPhase s) (estimate s) (pendingUrl s) (elapsed s) (isUnifiedLoading s) (messages s) (chatIsLoading s) (chatError s) (messageIdCounter s) (clock s) (requests s) (completions s)).

Definition setFiles (v : list File) : M unit :=
  fun s => (tt, mkSt (inputText s) v (users s) (expertise s) (tasks s) (format s) (contentType s) (contextGatheringPhase s) (pendingQuestion s) (analysisPhase s) (estimate s) (pendingUrl s) (elapsed s) (isUnifiedLoading s) (messages s) (chatIsLoading s) (chatError s) (messageIdCounter s) (clock s) (requests s) (completions s)).

Definition setUsers (v : string) : M unit :=
  fun s => (tt, mkSt (inputText s) (files s) v (expertise s) (tasks s) (format s) (contentType s) (contextGatheringPhase s) (pendingQuestion s) (analysisPhase s) (estimate s) (pendingUrl s) (elapsed s) (isUnifiedLoading s) (messages s) (chatIsLoading s) (chatError s) (messageIdCounter s) (clock s) (requests s) (completions s)).

Definition setExpertise (v : string) : M unit :=
  fun s => (tt, mkSt (inputText s) (files s) (users s) v (tasks s) (format s) (contentType s) (contextGatheringPhase s) (pendingQuestion s) (analysisPhase s) (estimate s) (pendingUrl s) (elapsed s) (isUnifiedLoading s) (messages s) (chatIsLoading s) (chatError s) (messageIdCounter s) (clock s) (requests s) (completions s)).

Definition setTasks (v : string) : M unit :=
  fun s => (tt, mkSt (inputText s) (files s) (users s) (expertise s) v (format s) (contentType s) (contextGatheringPhase s) (pendingQuestion s) (analysisPhase s) (estimate s) (pendingUrl s) (elapsed s) (isUnifiedLoading s) (messages s) (chatIsLoading s) (chatError s) (messageIdCounter s) (clock s) (requests s) (completions s)).

Definition setFormat (v : string) : M unit :=
  fun s => (tt, mkSt (inputText s) (files s) (users s) (expertise s) (tasks s) v (contentType s) (contextGatheringPhase s) (pendingQuestion s) (analysisPhase s) (estimate s) (pendingUrl s) (elapsed s) (isUnifiedLoading s) (messages s) (chatIsLoading s) (chatError s) (messageIdCounter s) (clock s) (requests s) (completions s)).

Definition setContentType (v : ContentType) : M unit :=
  fun s => (tt, mkSt (inputText s) (files s) (users s) (expertise s) (tasks s) (format s) v (contextGatheringPhase s) (pendingQuestion s) (analysisPhase s) (estimate s) (pendingUrl s) (elapsed s) (isUnifiedLoading s) (messages s) (chatIsLoading s) (chatError s) (messageIdCounter s) (clock s) (requests s) (completions s)).

Definition setContextGatheringPhase (v : ContextGatheringPhase) : M unit :=
  fun s => (tt, mkSt (inputText s) (files s) (users s) (expertise s) (tasks s) (format s) (contentType s) v (pendingQuestion s) (analysisPhase s) (estimate s) (pendingUrl s) (elapsed s) (isUnifiedLoading s) (messages s) (chatIsLoading s) (chatError s) (messageIdCounter s) (clock s) (requests s) (completions s)).

Definition setPendingQuestion (v : string) : M unit :=
  fun s => (tt, mkSt (inputText s) (files s) (users s) (expertise s) (tasks s) (format s) (contentType s) (contextGatheringPhase s) v (analysisPhase s) (estimate s) (pendingUrl s) (elapsed s) (isUnifiedLoading s) (messages s) (chatIsLoading s) (chatError s) (messageIdCounter s) (clock s) (requests s) (completions s)).

Definition setAnalysisPhase (v : AnalysisPhase) : M unit :=
  fun s => (tt, mkSt (inputText s) (files s) (users s) (expertise s) (tasks s) (format s) (contentType s) (contextGatheringPhase s) (pendingQuestion s) v (estimate s) (pendingUrl s) (elapsed s) (isUnifiedLoading s) (messages s) (chatIsLoading s) (chatError s) (messageIdCounter s) (clock s) (requests s) (completions s)).

Definition setEstimate (v : option UnifiedEstimate) : M unit :=
  fun s => (tt, mkSt (inputText s) (files s) (users s) (expertise s) (tasks s) (format s) (contentType s) (contextGatheringPhase s) (pendingQuestion s) (analysisPhase s) v (pendingUrl s) (elapsed s) (isUnifiedLoading s) (messages s) (chatIsLoading s) (chatError s) (messageIdCounter s) (clock s) (requests s) (completions s)).

Definition setPendingUrl (v : option string) : M unit :=
  fun s => (tt, mkSt (inputText s) (files s) (users s) (expertise s) (tasks s) (format s) (contentType s) (contextGatheringPhase s) (pendingQuestion s) (analysisPhase s) (estimate s) v (elapsed s) (isUnifiedLoading s) (messages s) (chatIsLoading s) (chatError s) (messageIdCounter s) (clock s) (requests s) (completions s)).

Definition set_elapsed (v : ElapsedState) : M unit :=
  fun s => (tt, mkSt (inputText s) (files s) (users s) (expertise s) (tasks s) (format s) (contentType s) (contextGatheringPhase s) (pendingQuestion s) (analysisPhase s) (estimate s) (pendingUrl s) v (isUnifiedLoading s) (messages s) (chatIsLoading s) (chatError s) (messageIdCounter s) (clock s) (requests s) (completions s)).

Definition setIsUnifiedLoading (v : bool) : M unit :=
  fun s => (tt, mkSt (inputText s) (files s) (users s) (expertise s) (tasks s) (format s) (contentType s) (contextGatheringPhase s) (pendingQuestion s) (analysisPhase s) (estimate s) (pendingUrl s) (elapsed s) v (messages s) (chatIsLoading s) (chatError s) (messageIdCounter s) (clock s) (requests s) (completions s)).

Definition set_messages (v : list ChatMessage) : M unit :=
  fun s => (tt, mkSt (inputText s) (files s) (users s) (expertise s) (tasks s) (format s) (contentType s) (contextGatheringPhase s) (pendingQuestion s) (analysisPhase s) (estimate s) (pendingUrl s) (elapsed s) (isUnifiedLoading s) v (chatIsLoading s) (chatError s) (messageIdCounter s) (clock s) (requests s) (completions s)).

Definition setChatIsLoading (v : bool) : M unit :=
  fun s => (tt, mkSt (inputText s) (files s) (users s) (expertise s) (tasks s) (format s) (contentType s) (contextGatheringPhase s) (pendingQuestion s) (analysisPhase s) (estimate s) (pendingUrl s) (elapsed s) (isUnifiedLoading s) (messages s) v (chatError s) (messageIdCounter s) (clock s) (requests s) (completions s)).

Definition setChatError (v : option string) : M unit :=
  fun s => (tt, mkSt (inputText s) (files s) (users s) (expertise s) (tasks s) (format s) (contentType s) (contextGatheringPhase s) (pendingQuestion s) (analysisPhase s) (estimate s) (pendingUrl s) (elapsed s) (isUnifiedLoading s) (messages s) (chatIsLoading s) v (messageIdCounter s) (clock s) (requests s) (completions s)).

Definition set_messageIdCounter (v : N) : M unit :=
  fun s => (tt, mkSt (inputText s) (files s) (users s) (expertise s) (tasks s) (format s) (contentType s) (contextGatheringPhase s) (pendingQuestion s) (analysisPhase s) (estimate s) (pendingUrl s) (elapsed s) (isUnifiedLoading s) (messages s) (chatIsLoading s) (chatError s) v (clock s) (requests s) (completions s)).

Definition set_clock (v : N) : M unit :=
  fun s => (tt, mkSt (inputText s) (files s) (users s) (expertise s) (tasks s) (format s) (contentType s) (contextGatheringPhase s) (pendingQuestion s) (analysisPhase s) (estimate s) (pendingUrl s) (elapsed s) (isUnifiedLoading s) (messages s) (chatIsLoading s) (chatError s) (messageIdCounter s) v (requests s) (completions s)).

Definition set_requests (v : list Request) : M unit :=
  fun s => (tt, mkSt (inputText s) (files s) (users s) (expertise s) (tasks s) (format s) (contentType s) (contextGatheringPhase s) (pendingQuestion s) (analysisPhase s) (estimate s) (pendingUrl s) (elapsed s) (isUnifiedLoading s) (messages s) (chatIsLoading s) (chatError s) (messageIdCounter s) (clock s) v (completions s)).

Definition set_completions (v : list Completion) : M unit :=
  fun s => (tt, mkSt (inputText s) (files s) (users s) (expertise s) (tasks s) (format s) (contentType s) (contextGatheringPhase s) (pendingQuestion s) (analysisPhase s) (estimate s) (pendingUrl s) (elapsed s) (isUnifiedLoading s) (messages s) (chatIsLoading s) (chatError s) (messageIdCounter s) (clock s) (requests s) v).
(** ** The prompts of the context-gathering dialogue *)

Definition nl : string := String (ascii_of_nat 10) "".
Definition dq : string := String (ascii_of_nat 34) "".

Definition users_too_short : string :=
  "That response is a bit too short. Please provide more detail (at least 10 characters) about who the users are." ++ nl ++ nl ++ "*(e.g., " ++ dq ++ "Adults ages 25-45 looking to stream movies" ++ dq ++ ", " ++ dq ++ "Enterprise software developers" ++ dq ++ ")*".

Definition ask_expertise : string :=
  "Got it. **What level of expertise will these users have** with this product?" ++ nl ++ nl ++ "*(e.g., " ++ dq ++ "First-time users unfamiliar with the domain" ++ dq ++ ", " ++ dq ++ "Intermediate users with some experience" ++ dq ++ ", " ++ dq ++ "Power users with years of experience" ++ dq ++ ")*".

Definition expertise_too_short : string :=
  "Please provide a bit more detail about the users' expertise level (at least 5 characters)." ++ nl ++ nl ++ "*(e.g., " ++ dq ++ "First-time users" ++ dq ++ ", " ++ dq ++ "Intermediate" ++ dq ++ ", " ++ dq ++ "Power users" ++ dq ++ ")*".

Definition ask_tasks : string :=
  "Thanks. Now, **what tasks are these users trying to accomplish?**" ++ nl ++ nl ++ "*(e.g., " ++ dq ++ "Find and play a movie" ++ dq ++ ", " ++ dq ++ "Sign up for an account" ++ dq ++ ", " ++ dq ++ "Complete a purchase" ++ dq ++ ")*".

Definition tasks_too_short : string :=
  "That response is a bit too short. Please provide more detail (at least 10 characters) about the tasks." ++ nl ++ nl ++ "*(e.g., " ++ dq ++ "Find and play a movie" ++ dq ++ ", " ++ dq ++ "Sign up for an account and complete a purchase" ++ dq ++ ")*".

Definition ask_format : string :=
  "Thanks. Finally, **what format is this design?**" ++ nl ++ nl ++ "*(e.g., " ++ dq ++ "Mobile app screenshot" ++ dq ++ ", " ++ dq ++ "Desktop website" ++ dq ++ ", " ++ dq ++ "Tablet app" ++ dq ++ ")*".

Definition format_too_short : string :=
  "Please provide more detail about the format (at least 10 characters)." ++ nl ++ nl ++ "*(e.g., " ++ dq ++ "Mobile app screenshot" ++ dq ++ ", " ++ dq ++ "Desktop website layout" ++ dq ++ ", " ++ dq ++ "Tablet application UI" ++ dq ++ ")*".

Definition all_set : string :=
  "All set! Let me estimate how long this analysis will take...".

Definition ask_users_tail : string :=
  "**Who are the intended users** of this interface?" ++ nl ++ nl ++ "*(e.g., " ++ dq ++ "Adults ages 25-45 looking to stream movies" ++ dq ++ ", " ++ dq ++ "Enterprise software developers" ++ dq ++ ")*".

Definition intro_files : string :=
  "I'd be happy to analyze this for UI traps! First, I need a bit of context." ++ nl ++ nl.

Definition estimate_hint : string :=
  "Please click **Start Analysis** below to proceed without an estimate.".

(** ** [useChat] *)

(** [generateId()], reading [Date.now()] from the clock. *)
Definition generateId : M string :=
  fun s =>
    let (i, c) := MessageId.generateId (messageIdCounter s) (clock s) in
    (i, snd (set_messageIdCounter c s)).

(** [setMessages(prev => [...prev, m])] *)
Definition appendMessage (m : ChatMessage) : M unit :=
  s <- get ;; set_messages (messages s ++ [m])%list.

(** Issue a network request. *)
Definition issue (r : Request) : M unit :=
  s <- get ;; set_requests (requests s ++ [r])%list.

(** Call [onAnalysisComplete]. *)
Definition notifyComplete (c : Completion) : M unit :=
  s <- get ;; set_completions (completions s ++ [c])%list.

(** Truthiness of an optional string ([undefined] and [''] are falsy). *)
Definition truthy (o : option string) : bool :=
  match o with Some v => negb (String.eqb v "") | None => false end.

(** [a || b] on an optional string and a default. *)
Definition js_or (o : option string) (d : string) : string :=
  match o with Some v => if String.eqb v "" then d else v | None => d end.

(** The filter of the conversation history sent to the backend:
    [m.role === 'user' || (m.role === 'assistant' && !m.reportHtml)]. *)
Definition keep_in_history (m : ChatMessage) : bool :=
  Role_eqb (role m) User || (Role_eqb (role m) Assistant && negb (truthy (reportHtml m))).

(** [messages.filter(keep).slice(-k)] *)
Definition history_entries (k : nat) (ms : list ChatMessage) : list ChatMessage :=
  Js.slice_neg k (filter keep_in_history ms).

(** [... .map(m => ({ role: m.role, content: m.content }))] *)
Definition conversationHistory (k : nat) (ms : list ChatMessage) : History :=
  map (fun m => (role m, content m)) (history_entries k ms).

(** [maxHistory = 10], the default of [useChat]; no caller overrides it. *)
Definition maxHistory : nat := 10.

(** [sendMessage(message)] of [useChat]; [out] is what [sendChatMessage]
    settles with. *)
Definition sendMessage (token message : string) (out : Outcome ChatApiResponse) : M unit :=
  if negb (Js.nonblank message) || String.eqb token "" then ret tt else
  s <- get ;;
  i <- generateId ;;
  appendMessage (mkMsg i User message ModeChat None (clock s) None) ;;
  setChatIsLoading true ;;
  setChatError None ;;
  issue (ReqChat message (conversationHistory maxHistory (messages s))) ;;
  match out with
  | Ok r =>
      i' <- generateId ;;
      let md := match cr_mode r with Some m => m | None => ModeChat end in
      appendMessage (mkMsg i' Assistant (cr_response r) md (Some (cr_sources r)) (clock s) None)
  | Err e =>
      setChatError (Some e) ;;
      i' <- generateId ;;
      appendMessage (mkMsg i' Assistant ("Sorry, I encountered an error: " ++ e)
                       ModeChat None (clock s) None)
  end ;;
  setChatIsLoading false.

(** [addAnalysisMessage(reportHtml, statistics)] of [useChat]. *)
Definition addAnalysisMessage (html : string) : M unit :=
  s <- get ;;
  i <- generateId ;;
  appendMessage (mkMsg i Assistant "Analysis complete. Here are the results:"
                   ModeAnalysis None (clock s) (Some html)).

(** Modelled from the spec: [addUserMessage(content, mode)] of [useChat]
    is called by the orchestrator but its body is not in the sources; per
    the spec each user submission becomes one user Transcript Entry. *)
Definition addUserMessage (text : string) (md : MessageMode) : M unit :=
  s <- get ;;
  i <- generateId ;;
  appendMessage (mkMsg i User text md None (clock s) None).

(** Modelled from the spec: [addSystemPrompt(content)] of [useChat] is
    called by the orchestrator but its body is not in the sources; per the
    spec each system prompt (context question, progress or failure notice)
    becomes one system Transcript Entry. *)
Definition addSystemPrompt (text : string) : M unit :=
  s <- get ;;
  i <- generateId ;;
  appendMessage (mkMsg i System text ModeAnalysis None (clock s) None).

(** ** [useElapsedTime] *)

Definition elapsed_start : M unit :=
  s <- get ;; set_elapsed (mkElapsed 0 true (Some (clock s))).

Definition elapsed_stop : M unit :=
  s <- get ;; set_elapsed (mkElapsed (elapsedTime (elapsed s)) false (startTime (elapsed s))).

Definition elapsed_reset : M unit :=
  set_elapsed (mkElapsed 0 false None).

(** The interval callback, run once a second while the stopwatch runs. *)
Definition elapsed_tick : M unit :=
  s <- get ;;
  let e := elapsed s in
  if isRunning e then
    match startTime e with
    | Some t0 => set_elapsed (mkElapsed ((clock s - t0) / 1000) true (Some t0))
    | None => ret tt
    end
  else ret tt.

(** ** URL detection

    [FIGMA_URL_PATTERN = /https?:\/\/(www\.)?figma\.com\/(file|design|proto)\/[a-zA-Z0-9]+/i]
    [WEBSITE_URL_PATTERN = /^https?:\/\/[^\s]+$/i]

    The optional parts never need backtracking: dropping a present [s] or
    [www.] leaves a character that cannot start what follows, and the
    three path words start with different letters. *)

(** Match a lower-case literal case-insensitively at the head of [s];
    return the rest. *)
Fixpoint match_ci (lit s : string) : option string :=
  match lit with
  | EmptyString => Some s
  | String l lr =>
      match s with
      | EmptyString => None
      | String c r => if Ascii.eqb (Js.lower_char c) l then match_ci lr r else None
      end
  end.

(** [s?], greedy. *)
Definition opt_s (s : string) : string :=
  match s with
  | String c r => if Ascii.eqb (Js.lower_char c) "s" then r else s
  | EmptyString => s
  end.

Definition is_alnum (c : ascii) : bool :=
  let n := nat_of_ascii c in
  (Nat.leb 48 n && Nat.leb n 57) || (Nat.leb 65 n && Nat.leb n 90) ||
  (Nat.leb 97 n && Nat.leb n 122).

(** Length of the leading [[a-zA-Z0-9]*] run. *)
Fixpoint alnum_run (s : string) : nat :=
  match s with
  | String c r => if is_alnum c then S (alnum_run r) else O
  | EmptyString => O
  end.

Definition obind {A B} (o : option A) (f : A -> option B) : option B :=
  match o with Some a => f a | None => None end.

(** Length of the figma match starting at the head of [s], if any. *)
Definition figma_at (s : string) : option nat :=
  obind (match_ci "http" s) (fun r1 =>
  obind (match_ci "://" (opt_s r1)) (fun r3 =>
  let r4 := match match_ci "www." r3 with Some r => r | None => r3 end in
  obind (match_ci "figma.com/" r4) (fun r5 =>
  obind (match match_ci "file" r5 with
         | Some r => Some r
         | None => match match_ci "design" r5 with
                   | Some r => Some r
                   | None => match_ci "proto" r5
                   end
         end) (fun r6 =>
  obind (match_ci "/" r6) (fun r7 =>
  let k := alnum_run r7 in
  if Nat.eqb k 0 then None
  else Some (String.length s - String.length r7 + k)%nat))))).

(** [s.match(FIGMA_URL_PATTERN)]: the leftmost match. *)
Fixpoint figma_search (s : string) : option string :=
  match figma_at s with
  | Some n => Some (substring 0 n s)
  | None => match s with String _ r => figma_search r | EmptyString => None end
  end.

Definition figma_test (s : string) : bool :=
  match figma_search s with Some _ => true | None => false end.

(** [WEBSITE_URL_PATTERN.test(s)] *)
Definition website_test (s : string) : bool :=
  match match_ci "http" s with
  | Some r1 =>
      match match_ci "://" (opt_s r1) with
      | Some r => negb (String.eqb r "") &&
                  forallb (fun c => negb (Js.is_space c)) (list_ascii_of_string r)
      | None => false
      end
  | None => false
  end.

Definition detectUrlType (text : string) : option UrlType :=
  let trimmed := Js.trim text in
  if figma_test trimmed then Some UFigma
  else if website_test trimmed && negb (Js.includes trimmed " ") then Some UUrl
  else None.

Definition extractUrl (text : string) : option string :=
  let trimmed := Js.trim text in
  match figma_search trimmed with
  | Some m => Some m
  | None => if website_test trimmed then Some trimmed else None
  end.

(** [if (x)] on a [string | null]. *)
Definition truthy_url (o : option string) : option string :=
  match o with Some u => if String.eqb u "" then None else Some u | None => None end.

(** [new URL(u).hostname], for the labels of messages: the authority
    after [://] up to the first [/], [?], [#] or [:], lower-cased. *)
Fixpoint authority (s : string) : string :=
  match s with
  | EmptyString => EmptyString
  | String c r =>
      if Ascii.eqb c "/" || Ascii.eqb c "?" || Ascii.eqb c "#" || Ascii.eqb c ":"
      then EmptyString else String (Js.lower_char c) (authority r)
  end.

Definition hostname (u : string) : string :=
  match match_ci "http" u with
  | Some r1 => match match_ci "://" (opt_s r1) with Some r => authority r | None => u end
  | None => u
  end.

(** ** The mode classifier *)

Definition min_len (n : nat) (v : string) : bool :=
  Nat.leb n (String.length (Js.trim v)).

Definition hasFullContext (users expertise tasks format : string) : bool :=
  min_len 10 users && min_len 5 expertise && min_len 10 tasks && min_len 10 format.

Definition detectMode (inputText : string) (files : list File)
    (users expertise tasks format : string) (detectedUrl : option string) : DetectedMode :=
  let hasText := Js.nonblank inputText in
  let hasFiles := Nat.ltb 0 (List.length files) in
  let hasContext := hasFullContext users expertise tasks format in
  let rest :=
    if negb hasText && negb hasFiles then MIdle
    else if hasFiles && hasContext then MAnalysis
    else if hasFiles && hasText && negb hasContext then MHybrid
    else if hasFiles && negb hasText && negb hasContext then MAnalysis
    else MChat in
  match truthy_url detectedUrl with
  | Some u =>
      match detectUrlType u with
      | Some UFigma => MFigma
      | Some UUrl => MUrl
      | None => rest
      end
  | None => rest
  end.

(** [detectedMode], recomputed from the state on every render. *)
Definition detectedMode (s : St) : DetectedMode :=
  detectMode (inputText s) (files s) (users s) (expertise s) (tasks s) (format s)
    (extractUrl (inputText s)).

(** ** API client (src/unnamed/part_006): how each call settles *)

(** [unifiedAsk]: an abort becomes the timeout error, a non-OK response
    throws [data.error || `HTTP ${status}`], anything else is returned. *)
Definition unifiedAsk_outcome (f : FetchResult) : Outcome AskBody :=
  match f with
  | FetchAbort => Err "Request timed out. Please try again."
  | FetchNetworkError m => Err m
  | FetchResponse ok status b =>
      if ok then Ok b else Err (js_or (ab_error b) ("HTTP " ++ Js.show_N status))
  end.

(** [analyzeFigma] and [analyzeUrl] also throw when [!data.success]. *)
Definition analyzeFigma_outcome (f : FetchResult) : Outcome AskBody :=
  match f with
  | FetchAbort => Err "Figma analysis timed out. Please try again."
  | FetchNetworkError m => Err m
  | FetchResponse ok status b =>
      if negb ok then
        Err (js_or (ab_error b) (js_or (ab_detail b)
               ("HTTP " ++ Js.show_N status ++ ": Figma analysis failed")))
      else if negb (ab_success b) then Err (js_or (ab_error b) "Figma analysis failed")
      else Ok b
  end.

Definition analyzeUrl_outcome (f : FetchResult) : Outcome AskBody :=
  match f with
  | FetchAbort => Err "URL analysis timed out. Please try again."
  | FetchNetworkError m => Err m
  | FetchResponse ok status b =>
      if negb ok then
        Err (js_or (ab_error b) (js_or (ab_detail b)
               ("HTTP " ++ Js.show_N status ++ ": URL analysis failed")))
      else if negb (ab_success b) then Err (js_or (ab_error b) "URL analysis failed")
      else Ok b
  end.

(** Default [timeout] (ms) of each client function. *)
Definition default_timeout (op : Operation) : Z :=
  match op with
  | OpAnalyzeImage => 120000
  | OpAnalyzeMultiImage => 600000
  | OpAnalyzeVideo => 900000
  | OpGetEstimate => 30000
  | OpSendChatMessage => 60000
  | OpUnifiedAsk => 120000
  | OpGetFigmaEstimate => 30000
  | OpGetUrlEstimate => 30000
  | OpAnalyzeFigma => 1800000
  | OpAnalyzeUrl => 600000
  end.

(** The timer armed by a call: [timeout = default] in the destructuring
    applies when the caller passes none, as every orchestrator call does. *)
Definition effective_timeout (override : option Z) (op : Operation) : Z :=
  match override with Some t => t | None => default_timeout op end.

Definition request_timeout (r : Request) : Z :=
  effective_timeout None (request_op r).

(** ** Estimation, confirmation, execution and cancellation *)

Definition fallback_figma : FigmaEstimateResponse :=
  mkFigmaEst "Figma file" 5 false 0 120 300 "2-5 minutes" 5 "~5 credits" true.

Definition fallback_url (u : string) : UrlEstimateResponse :=
  mkUrlEst u 5 200 400 "3-7 minutes" 5 "~5 credits" true.

Definition fallback_files (fs : list File) : EstimateResponse :=
  mkFileEst (if Nat.ltb 1 (List.length fs) then MultiImage else SingleImage)
    (List.length fs) 0 30 120 "30 seconds" "2 minutes" 1 1 10 30 false.

Definition is_figma (u : string) : bool :=
  match detectUrlType u with Some UFigma => true | _ => false end.

(** [startEstimation(urlToAnalyze?)]; [out] is what the estimate call
    settles with. *)
Definition startEstimation (urlToAnalyze : option string) (out : Outcome UnifiedEstimate) : M unit :=
  setAnalysisPhase Estimating ;;
  setIsUnifiedLoading true ;;
  s <- get ;;
  let target := truthy_url urlToAnalyze in
  match target with
  | Some u => issue (if is_figma u then ReqFigmaEstimate u else ReqUrlEstimate u 10)
  | None => issue (ReqEstimate (files s))
  end ;;
  match out with
  | Ok est =>
      match target with Some u => setPendingUrl (Some u) | None => ret tt end ;;
      setEstimate (Some est) ;;
      setAnalysisPhase Previewing
  | Err msg =>
      addSystemPrompt ("Could not get estimate: " ++ msg ++ ". " ++ estimate_hint) ;;
      match target with
      | Some u =>
          setPendingUrl (Some u) ;;
          (if is_figma u then setEstimate (Some (EstFigma fallback_figma))
           else setEstimate (Some (EstUrl (fallback_url u))))
      | None => setEstimate (Some (EstFiles (fallback_files (files s))))
      end ;;
      setAnalysisPhase Previewing
  end ;;
  setIsUnifiedLoading false.

(** What the continuation of [runAnalysis] captured in its closure. *)
Record Pending := mkPending {
  pd_url : option string;
  pd_files : list File;
  pd_request : Request
}.

(** [runAnalysis], up to the [await] of the network call. *)
Definition runAnalysis_start : M Pending :=
  setAnalysisPhase Analyzing ;;
  elapsed_start ;;
  setIsUnifiedLoading true ;;
  s <- get ;;
  let context := mkContext (users s) (expertise s) (tasks s) (format s) (contentType s) in
  let req :=
    match truthy_url (pendingUrl s) with
    | Some u => if is_figma u then ReqAnalyzeFigma u context 10 else ReqAnalyzeUrl u context 10
    | None =>
        ReqUnifiedAsk (if String.eqb (pendingQuestion s) "" then None else Some (pendingQuestion s))
          (files s) context (conversationHistory 10 (messages s))
    end in
  issue req ;;
  ret (mkPending (truthy_url (pendingUrl s)) (files s) req).

Definition clearInputs : M unit :=
  setInputText "" ;;
  setFiles [] ;;
  setPendingQuestion "" ;;
  setPendingUrl None ;;
  setAnalysisPhase APIdle ;;
  setEstimate None.

(** The [catch] block. *)
Definition analysisFailed (msg : string) : M unit :=
  elapsed_stop ;;
  addSystemPrompt ("Analysis failed: " ++ msg) ;;
  setAnalysisPhase APIdle ;;
  setEstimate None ;;
  setPendingUrl None.

Fixpoint join (sep : string) (l : list string) : string :=
  match l with
  | [] => ""
  | [x] => x
  | x :: r => x ++ sep ++ join sep r
  end.

(** [runAnalysis], from the settling of the network call on. *)
Definition runAnalysis_settle (p : Pending) (f : FetchResult) : M unit :=
  match pd_url p with
  | Some u =>
      let analysisName := if is_figma u then "Figma file" else hostname u in
      match (if is_figma u then analyzeFigma_outcome f else analyzeUrl_outcome f) with
      | Err msg => analysisFailed msg
      | Ok result =>
          elapsed_stop ;;
          setAnalysisPhase APComplete ;;
          (if ab_success result
           then notifyComplete (mkCompletion
                  (mkAskBody true ModeAnalysis None None (ab_report_html result))
                  [analysisName])
           else ret tt) ;;
          addSystemPrompt ("Analysis completed for " ++ analysisName ++
                           ". View the full report above.") ;;
          clearInputs
      end
  | None =>
      match unifiedAsk_outcome f with
      | Err msg => analysisFailed msg
      | Ok result =>
          elapsed_stop ;;
          setAnalysisPhase APComplete ;;
          let fileNames := map name (pd_files p) in
          match ab_mode result with
          | ModeAnalysis | ModeHybrid => notifyComplete (mkCompletion result fileNames)
          | ModeChat => ret tt
          end ;;
          addSystemPrompt ("Analysis completed for " ++ join ", " fileNames ++
                           ". View the full report above.") ;;
          clearInputs
      end
  end ;;
  setIsUnifiedLoading false.

(** [confirmAnalysis] when the call settles before anything else runs. *)
Definition confirmAnalysis (f : FetchResult) : M unit :=
  p <- runAnalysis_start ;; runAnalysis_settle p f.

Definition cancelAnalysis : M unit :=
  elapsed_reset ;;
  setAnalysisPhase APIdle ;;
  setEstimate None ;;
  setIsUnifiedLoading false.

(** ** [submit]

    [est] is what the estimate call settles with if [submit] reaches
    [startEstimation], [reply] what [sendChatMessage] settles with if it
    reaches [chat.sendMessage]; [submit] awaits both before returning. *)

Definition detect_content_type (answer : string) : M unit :=
  let lowerAnswer := Js.to_lower answer in
  if Js.includes lowerAnswer "mobile" || Js.includes lowerAnswer "ios" ||
     Js.includes lowerAnswer "android" then setContentType MobileApp
  else if Js.includes lowerAnswer "desktop" || Js.includes lowerAnswer "windows" ||
          Js.includes lowerAnswer "mac" then setContentType DesktopApp
  else if Js.includes lowerAnswer "game" then setContentType Game
  else if Js.includes lowerAnswer "web" || Js.includes lowerAnswer "site" then setContentType Website
  else ret tt.

(** The context-gathering branch, for a non-empty trimmed [answer]. *)
Definition gather (phase : ContextGatheringPhase) (answer : string)
    (pendingUrl0 : option string) (est : Outcome UnifiedEstimate) : M unit :=
  addUserMessage answer ModeAnalysis ;;
  setInputText "" ;;
  match phase with
  | AskingUsers =>
      if negb (min_len 10 answer) then addSystemPrompt users_too_short
      else setUsers answer ;; setContextGatheringPhase AskingExpertise ;;
           addSystemPrompt ask_expertise
  | AskingExpertise =>
      if negb (min_len 5 answer) then addSystemPrompt expertise_too_short
      else setExpertise answer ;; setContextGatheringPhase AskingTasks ;;
           addSystemPrompt ask_tasks
  | AskingTasks =>
      if negb (min_len 10 answer) then addSystemPrompt tasks_too_short
      else setTasks answer ;; setContextGatheringPhase AskingFormat ;;
           addSystemPrompt ask_format
  | AskingFormat =>
      if negb (min_len 10 answer) then addSystemPrompt format_too_short
      else setFormat answer ;; setContextGatheringPhase CGIdle ;;
           detect_content_type answer ;;
           addSystemPrompt all_set ;;
           startEstimation pendingUrl0 est
  | _ => ret tt
  end.

Definition submit (token : string) (est : Outcome UnifiedEstimate)
    (reply : Outcome ChatApiResponse) : M unit :=
  if String.eqb token "" then ret tt else
  s <- get ;;
  match contextGatheringPhase s with
  | CGIdle =>
      let detectedUrl := extractUrl (inputText s) in
      match detectedMode s with
      | MIdle => ret tt
      | MChat =>
          let text := Js.trim (inputText s) in
          setInputText "" ;;
          sendMessage token text reply
      | MFigma | MUrl =>
          match detectedUrl with
          | None => ret tt
          | Some url =>
              let figma := match detectedMode s with MFigma => true | _ => false end in
              let urlLabel := if figma then "Figma file" else hostname url in
              setPendingUrl (Some url) ;;
              addUserMessage ("Analyze this " ++
                              (if figma then "Figma design" else "website") ++ ": " ++ url)
                ModeAnalysis ;;
              setInputText "" ;;
              if hasFullContext (users s) (expertise s) (tasks s) (format s) then
                addSystemPrompt ("Starting analysis of " ++ urlLabel ++ "...") ;;
                startEstimation (Some url) est
              else
                setContextGatheringPhase AskingUsers ;;
                addSystemPrompt ("I'll analyze **" ++ urlLabel ++
                                 "** for UI traps! First, I need a bit of context." ++
                                 nl ++ nl ++ ask_users_tail)
          end
      | MAnalysis | MHybrid =>
          let fileNames := join ", " (map name (files s)) in
          let userText := Js.trim (inputText s) in
          let userContent :=
            if negb (String.eqb userText "")
            then userText ++ nl ++ nl ++ "*Attached: " ++ fileNames ++ "*"
            else "*Attached for analysis: " ++ fileNames ++ "*" in
          addUserMessage userContent ModeAnalysis ;;
          setPendingQuestion userText ;;
          setInputText "" ;;
          if hasFullContext (users s) (expertise s) (tasks s) (format s) then
            startEstimation None est
          else
            setContextGatheringPhase AskingUsers ;;
            addSystemPrompt (intro_files ++ ask_users_tail)
      end
  | phase =>
      let answer := Js.trim (inputText s) in
      if String.eqb answer "" then ret tt
      else gather phase answer (pendingUrl s) est
  end.

(** The per-question constants of [submit]'s context-gathering branch:
    the minimum trimmed length, the guidance re-prompt, and the phase a
    passing answer moves to ([asking_format] ends in [idle] and the
    estimation step). *)
Definition min_for (p : ContextGatheringPhase) : nat :=
  match p with AskingExpertise => 5 | _ => 10 end.

Definition reprompt_text (p : ContextGatheringPhase) : string :=
  match p with
  | AskingUsers => users_too_short
  | AskingExpertise => expertise_too_short
  | AskingTasks => tasks_too_short
  | AskingFormat => format_too_short
  | _ => ""
  end.

Definition cg_next (p : ContextGatheringPhase) : ContextGatheringPhase :=
  match p with
  | AskingUsers => AskingExpertise
  | AskingExpertise => AskingTasks
  | AskingTasks => AskingFormat
  | AskingFormat => CGIdle
  | q => q
  end.

Definition is_asking (p : ContextGatheringPhase) : bool :=
  match p with
  | AskingUsers | AskingExpertise | AskingTasks | AskingFormat => true
  | _ => false
  end.

(** The context field a question fills in. *)
Definition field_of (p : ContextGatheringPhase) (s : St) : string :=
  match p with
  | AskingUsers => users s
  | AskingExpertise => expertise s
  | AskingTasks => tasks s
  | AskingFormat => format s
  | _ => ""
  end.

Definition is_estimate_request (r : Request) : bool :=
  match request_op r with
  | OpGetEstimate | OpGetFigmaEstimate | OpGetUrlEstimate => true
  | _ => false
  end.

(** The state of a freshly mounted hook ([useState] initial values), the
    id counter and the clock being those of the page. *)
Definition init_state (counter now : N) : St :=
  mkSt "" [] "" "" "" "" Website CGIdle "" APIdle None None
    (mkElapsed 0 false None) false [] false None counter now [] [].

End Unified.

(* ------------------------------------------------------------------ *)
(** ** Concrete sessions used by the witnesses and counterexamples *)

Module Scenarios.
Import Unified.
Local Open Scope orch_scope.

Definition png : File := mkFile "a.png".

(** A session whose four context fields are complete and one image is
    attached. *)
Definition ready : St :=
  exec (setUsers "Adults looking to stream movies" ;; setExpertise "Novices" ;;
        setTasks "Find and play a movie" ;; setFormat "Mobile app screenshot" ;;
        setFiles [png]) (init_state 0 1000).

Definition est_ok : Outcome UnifiedEstimate := Ok (EstFiles (fallback_files [png])).
Definition reply_ok : Outcome ChatApiResponse := Ok (mkChatResp "Hi" [] None).

(** [submit] with the attached image: the estimate preview. *)
Definition previewing : St := exec (submit "tok" est_ok reply_ok) ready.

(** [confirmAnalysis] from the preview, suspended on [/api/ask]. *)
Definition analyzing_pending : Pending := fst (runAnalysis_start previewing).
Definition analyzing : St := snd (runAnalysis_start previewing).

(** A report delivered by [/api/ask], and an HTTP 200 body in which the
    backend reports a failure through [success: false]. *)
Definition report_ok : AskBody := mkAskBody true ModeAnalysis None None (Some "<h1>Report</h1>").
Definition report_failed : AskBody :=
  mkAskBody false ModeAnalysis (Some "Usage limit reached") None None.

(** A session waiting in [phase] with [text] typed in the input. *)
Definition gathering (phase : ContextGatheringPhase) (text : string) : St :=
  exec (setFiles [png] ;; setContextGatheringPhase phase ;; setInputText text)
    (init_state 0 1000).

End Scenarios.

(* ------------------------------------------------------------------ *)
(** ** Further code of the hooks, the history service and the input
    components *)

(** [useElapsedTime] and [formatElapsedTime] (useElapsedTime.ts), over the
    stopwatch fields of the orchestrator state. *)
Module Stopwatch.
Import Unified.
Local Open Scope orch_scope.

(** [formatElapsedTime(seconds)], for the whole seconds the stopwatch
    produces. *)
Definition formatElapsedTime (seconds : N) : string :=
  let mins := (seconds / 60)%N in
  let secs := (seconds mod 60)%N in
  if (0 <? mins)%N then Js.show_N mins ++ "m " ++ Js.show_N secs ++ "s"
  else Js.show_N secs ++ "s".

(** One firing of the interval, [Date.now()] reading [t]. *)
Definition tick_at (t : N) : M unit := set_clock t ;; elapsed_tick.

(** Successive firings at the readings [ts]. *)
Fixpoint ticks (ts : list N) : M unit :=
  match ts with
  | [] => ret tt
  | t :: r => tick_at t ;; ticks r
  end.

End Stopwatch.

(** [clearHistory] of [useChat] (useAuth.ts). *)
Module ChatHook.
Import Unified.
Local Open Scope orch_scope.

Definition clearHistory : M unit :=
  set_messages [] ;;
  setChatError None.

(** [isLoading: chat.isLoading || isUnifiedLoading], what the orchestrator
    hands to the input component. *)
Definition isLoading (s : St) : bool := chatIsLoading s || isUnifiedLoading s.

End ChatHook.

(** [useAuth] (useAuth.ts). *)
Module Auth.

Inductive AuthMode := Standalone | Wordpress.

(** [AuthState] *)
Record AuthState := mkAuth {
  isAuthenticated : bool;
  token : option string;
  userId : option string;
  hasSubscription : bool;
  isLoading : bool;
  error : option string
}.

(** The fields of a decoded JWT payload that are read; [userId] is
    [None] when absent, [hasActiveSubscription] is its truthiness. *)
Record Payload := mkPayload {
  p_userId : option string;
  p_hasActiveSubscription : bool
}.

(** The body of the WordPress AJAX answer: [data.success],
    [data.data?.token], [data.data?.message]. *)
Record WpBody := mkWpBody {
  wp_success : bool;
  wp_token : option string;
  wp_message : option string
}.

(** [s.split('.')] *)
Fixpoint split_dot (s : string) : list string :=
  match s with
  | EmptyString => [""]
  | String c r =>
      let parts := split_dot r in
      if Ascii.eqb c "." then "" :: parts
      else match parts with
           | p :: ps => String c p :: ps
           | [] => [String c ""]
           end
  end.

(** [x || null] on a string. *)
Definition or_null (o : option string) : option string :=
  match o with Some u => if String.eqb u "" then None else Some u | None => None end.

(** Initial state: loading only in WordPress mode. *)
Definition init_auth (mode : AuthMode) : AuthState :=
  mkAuth false None None false (match mode with Wordpress => true | Standalone => false end) None.

Section Decoding.

(** [JSON.parse(atob(part))]: the payload, or the message of what it
    throws. *)
Variable decode : string -> Unified.Outcome Payload.

(** [setToken(token)]; [parts[1]] of a three-part split is defined. *)
Definition setToken (tok : string) (s : AuthState) : AuthState :=
  let parts := split_dot tok in
  if Nat.eqb (List.length parts) 3 then
    match decode (nth 1 parts "undefined") with
    | Unified.Ok p =>
        mkAuth true (Some tok) (or_null (p_userId p)) (p_hasActiveSubscription p) false None
    | Unified.Err _ =>
        mkAuth true (Some tok) (userId s) (hasSubscription s) false (error s)
    end
  else s.

(** The standalone-mode effect: [setToken]'s body on [options.token]. *)
Definition standalone_effect (mode : AuthMode) (tok : string) (s : AuthState) : AuthState :=
  match mode with
  | Standalone => if String.eqb tok "" then s else setToken tok s
  | Wordpress => s
  end.

(** [fetchWordPressToken]; [resp] is what [fetch] and [response.json()]
    settle with. [atob(undefined)] decodes the text ["undefined"]. *)
Definition fetchWordPressToken (mode : AuthMode) (ajaxUrl : string)
    (resp : Unified.Outcome WpBody) (s : AuthState) : AuthState :=
  match mode with
  | Standalone => s
  | Wordpress =>
      if String.eqb ajaxUrl "" then s else
      let s1 := mkAuth (isAuthenticated s) (token s) (userId s) (hasSubscription s) true None in
      match resp with
      | Unified.Err msg =>
          mkAuth (isAuthenticated s1) (token s1) (userId s1) (hasSubscription s1) false (Some msg)
      | Unified.Ok d =>
          match (if wp_success d then or_null (wp_token d) else None) with
          | Some t =>
              match decode (nth 1 (split_dot t) "undefined") with
              | Unified.Ok p =>
                  mkAuth true (Some t) (or_null (p_userId p)) (p_hasActiveSubscription p) false None
              | Unified.Err msg =>
                  mkAuth (isAuthenticated s1) (token s1) (userId s1) (hasSubscription s1)
                    false (Some msg)
              end
          | None =>
              mkAuth (isAuthenticated s1) (token s1) (userId s1) (hasSubscription s1) false
                (Some (match or_null (wp_message d) with
                       | Some m => m | None => "Authentication failed" end))
          end
      end
  end.

End Decoding.

End Auth.

(** The [localStorage] history of past analyses
    (src/frontend/src/services/analysisHistory.ts). The key holds what
    this module wrote, or text [JSON.parse] rejects; [JSON.stringify]
    followed by [JSON.parse] gives back the stored entries. *)
Module AnalysisHistory.

Section Store.

(** [ReportStatistics], passed through unchanged. *)
Variable Stats : Type.

Record StoredAnalysis := mkStored {
  sa_id : string;
  sa_timestamp : string;
  sa_fileNames : list string;
  sa_statistics : option Stats;
  sa_html : string
}.

Inductive Slot := Json (l : list StoredAnalysis) | Unparsable.

(** Whether [localStorage.setItem] of the serialized list succeeds (it
    throws when the quota is exceeded). *)
Variable fits : list StoredAnalysis -> bool.

Definition MAX_ENTRIES : nat := 10.

Definition setItem (l : list StoredAnalysis) : Unified.Outcome (option Slot) :=
  if fits l then Unified.Ok (Some (Json l)) else Unified.Err "QuotaExceededError".

Definition getAnalysisHistory (st : option Slot) : list StoredAnalysis :=
  match st with Some (Json l) => l | _ => [] end.

Definition analysis_id (now : N) : string := "analysis-" ++ Js.show_N now.

(** [saveAnalysis(analysis)] at [Date.now()] = [now]; an [Err] is the
    exception of the second [setItem], which escapes. *)
Definition saveAnalysis (now : N) (timestamp : string) (fileNames : list string)
    (statistics : option Stats) (html : string) (st : option Slot) : Unified.Outcome (option Slot) :=
  let entry := mkStored (analysis_id now) timestamp fileNames statistics html in
  let updated := firstn MAX_ENTRIES (entry :: getAnalysisHistory st) in
  match setItem updated with
  | Unified.Ok st' => Unified.Ok st'
  | Unified.Err _ => setItem (firstn 5 updated)
  end.

Definition getAnalysisById (i : string) (st : option Slot) : option StoredAnalysis :=
  find (fun a => String.eqb (sa_id a) i) (getAnalysisHistory st).

Definition deleteAnalysis (i : string) (st : option Slot) : Unified.Outcome (option Slot) :=
  setItem (filter (fun a => negb (String.eqb (sa_id a) i)) (getAnalysisHistory st)).

End Store.

Arguments mkStored {Stats}.
Arguments Json {Stats}.
Arguments Unparsable {Stats}.

End AnalysisHistory.

(** File selection of [FileUpload] (src/frontend/src/components/FileUpload.tsx)
    and of the [UnifiedInput] component
    (src/frontend/src/components/UnifiedInput.tsx). A [File] is seen
    through its [name], [type] and [size] (bytes). *)
Module Upload.

Record UFile := mkUFile {
  uf_name : string;
  uf_type : string;
  uf_size : N
}.

Definition MAX_IMAGE_SIZE : N := 10 * 1024 * 1024.
Definition MAX_VIDEO_SIZE : N := 100 * 1024 * 1024.
Definition IMAGE_TYPES : list string := ["image/png"; "image/jpeg"; "image/jpg"].
Definition VIDEO_TYPES : list string := ["video/mp4"; "video/quicktime"; "video/webm"].

(** [arr.includes(x)] on strings. *)
Definition mem (l : list string) (x : string) : bool := existsb (String.eqb x) l.

Definition acceptedTypes (acceptVideo : bool) : list string :=
  if acceptVideo then IMAGE_TYPES ++ VIDEO_TYPES else IMAGE_TYPES.

Definition isVideo (f : UFile) : bool := mem VIDEO_TYPES (uf_type f).
Definition isImage (f : UFile) : bool := mem IMAGE_TYPES (uf_type f).

(** The [for] loop of [validateFiles]. *)
Fixpoint check_each (acceptVideo : bool) (fs : list UFile) : option string :=
  match fs with
  | [] => None
  | f :: r =>
      if negb (mem (acceptedTypes acceptVideo) (uf_type f)) then
        Some ("Unsupported file type: " ++ uf_name f ++ ". Please upload " ++
              (if acceptVideo then "PNG, JPEG, MP4, MOV, or WebM" else "PNG or JPEG"))
      else
        let maxSize := if isVideo f then MAX_VIDEO_SIZE else MAX_IMAGE_SIZE in
        if (maxSize <? uf_size f)%N then
          Some (uf_name f ++ " is too large. Maximum size is " ++
                Js.show_N (maxSize / (1024 * 1024)) ++ "MB")
        else check_each acceptVideo r
  end.

(** [validateFiles(fileList)] of [FileUpload]. *)
Definition validateFiles (maxFiles : nat) (acceptVideo : bool) (fileList : list UFile) : option string :=
  if Nat.eqb (List.length fileList) 0 then Some "Please select at least one file"
  else if Nat.ltb maxFiles (List.length fileList) then
    Some ("Maximum " ++ Js.show_N (N.of_nat maxFiles) ++ " files allowed")
  else
    let hasVideos := existsb isVideo fileList in
    let hasImages := existsb isImage fileList in
    if hasVideos && hasImages then Some "Cannot mix images and videos. Please upload one type."
    else if hasVideos && Nat.ltb 1 (List.length fileList) then
      Some "Only one video file allowed at a time"
    else check_each acceptVideo fileList.

(** [handleFiles(newFiles)]: the local error and the list passed to
    [onFilesSelect]. *)
Definition handleFiles (maxFiles : nat) (acceptVideo : bool) (newFiles : list UFile)
    : option string * list UFile :=
  match validateFiles maxFiles acceptVideo newFiles with
  | Some e => (Some e, [])
  | None => (None, newFiles)
  end.

(** [arr.filter((_, i) => i !== index)] *)
Fixpoint filter_index {A} (l : list A) (index i : nat) : list A :=
  match l with
  | [] => []
  | x :: r => if Nat.eqb i index then filter_index r index (S i)
              else x :: filter_index r index (S i)
  end.

Definition remove_at {A} (l : list A) (index : nat) : list A := filter_index l index 0.

(** [handleRemove(e, index?)] of [FileUpload]: the list passed to
    [onFilesSelect]. *)
Definition handleRemove (files : list UFile) (index : option nat) : list UFile :=
  match index with Some i => remove_at files i | None => [] end.



(** [removeFile(index)] of [UnifiedInput]. *)
Definition removeFile (files : list UFile) (index : nat) : list UFile := remove_at files index.

(** The label of a file chip. *)
Definition chipLabel (n : string) : string :=
  if Nat.ltb 20 (String.length n) then substring 0 17 n ++ "..." else n.

Definition is_idle (m : Unified.DetectedMode) : bool :=
  match m with Unified.MIdle => true | _ => false end.

(** [handleKeyDown]: whether [onSubmit()] is called. *)
Definition handleKeyDown (key : string) (shiftKey isLoading : bool)
    (detectedMode : Unified.DetectedMode) : bool :=
  String.eqb key "Enter" && negb shiftKey && negb isLoading && negb (is_idle detectedMode).

(** [disabled={isLoading || detectedMode === 'idle'}] of the send button. *)
Definition sendDisabled (isLoading : bool) (detectedMode : Unified.DetectedMode) : bool :=
  isLoading || is_idle detectedMode.

End Upload.

(** The classifier of the three-question orchestrator
    (src/frontend/src/hooks/useUnifiedInput.ts). *)
Module Legacy.
Import Unified.

Definition hasFullContext (users tasks format : string) : bool :=
  min_len 10 users && min_len 10 tasks && min_len 10 format.

Definition detectMode (inputText : string) (files : list File) (users tasks format : string)
    : DetectedMode :=
  let hasText := Js.nonblank inputText in
  let hasFiles := Nat.ltb 0 (List.length files) in
  let hasContext := hasFullContext users tasks format in
  if negb hasText && negb hasFiles then MIdle
  else if hasFiles && hasContext then MAnalysis
  else if hasFiles && hasText && negb hasContext then MHybrid
  else if hasFiles && negb hasText && negb hasContext then MAnalysis
  else MChat.

End Legacy.

(* ================================================================== *)
(** * Proofs *)

From Stdlib Require Import Sorted.

(** ** Decimal rendering and the shape of message ids *)

Module MessageIdFacts.
Import MessageId.

Definition dash : ascii := "-".

(** No digit string contains a dash. *)
Fixpoint no_dash (s : string) : bool :=
  match s with
  | EmptyString => true
  | String c r => negb (Ascii.eqb c dash) && no_dash r
  end.

Lemma uint_no_dash (d : uint) : no_dash (Js.uint_to_string d) = true.
Proof. induction d; simpl; auto. Qed.

Lemma split_at_dash (a a' b b' : string) :
  no_dash a = true -> no_dash a' = true ->
  a ++ String dash b = a' ++ String dash b' -> a = a' /\ b = b'.
Proof.
  revert a'. induction a as [|c a IH]; intros a' Ha Ha' E; destruct a' as [|c' a']; simpl in *.
  - inversion E; auto.
  - inversion E; subst. rewrite Ascii.eqb_refl in Ha'. discriminate.
  - inversion E; subst. rewrite Ascii.eqb_refl in Ha. discriminate.
  - apply andb_prop in Ha as [_ Ha]. apply andb_prop in Ha' as [_ Ha'].
    inversion E; subst. destruct (IH a' Ha Ha' H1) as [-> ->]. auto.
Qed.

Lemma uint_to_string_inj (d d' : uint) :
  Js.uint_to_string d = Js.uint_to_string d' -> d = d'.
Proof.
  revert d'. induction d; intros d' E; destruct d'; simpl in E;
    try discriminate; try reflexivity;
    inversion E; f_equal; auto.
Qed.

Lemma show_N_inj (n n' : N) : Js.show_N n = Js.show_N n' -> n = n'.
Proof.
  unfold Js.show_N. intros E.
  apply DecimalN.Unsigned.to_uint_inj, uint_to_string_inj, E.
Qed.

Lemma mk_id_inj (t t' c c' : N) : mk_id t c = mk_id t' c' -> t = t' /\ c = c'.
Proof.
  unfold mk_id. simpl. intros E. inversion E as [E'].
  apply split_at_dash in E' as [E1 E2]; try apply uint_no_dash.
  split; apply show_N_inj; assumption.
Qed.

Lemma generate_ids_fst (c : N) (nows : list N) :
  fst (generate_ids c nows) =
  map (fun p => mk_id (fst p) (snd p)) (combine nows (counters c nows)).
Proof.
  revert c. induction nows as [|t ts IH]; intros c; simpl; auto.
  destruct (generate_ids (c + 1) ts) as [ids c'] eqn:G. simpl.
  rewrite <- IH, G. reflexivity.
Qed.

Lemma counters_above (c : N) (nows : list N) (k : N) :
  In k (counters c nows) -> (c < k)%N.
Proof.
  revert c. induction nows as [|t ts IH]; intros c H; simpl in H; [contradiction|].
  destruct H as [<-|H]; [lia|]. apply IH in H. lia.
Qed.

Lemma combine_in_snd {A B} (l : list A) (l' : list B) a b :
  In (a, b) (combine l l') -> In b l'.
Proof. apply in_combine_r. Qed.

End MessageIdFacts.

(** C10. Every transcript entry of a run gets a distinct id: the counter
    component of consecutive ids strictly increases, whatever the clock
    readings, and no two ids of the run are equal. *)
Theorem generateId_unique (messageIdCounter : N) (nows : list N) :
  Sorted N.lt (MessageId.counters messageIdCounter nows) /\
  NoDup (fst (MessageId.generate_ids messageIdCounter nows)).
Proof.
  split.
  - revert messageIdCounter. induction nows as [|t ts IH]; intros c; simpl.
    + constructor.
    + constructor; [apply IH|].
      destruct ts; simpl; constructor. lia.
  - revert messageIdCounter. induction nows as [|t ts IH]; intros c; simpl.
    + constructor.
    + destruct (MessageId.generate_ids (c + 1) ts) as [ids c'] eqn:G. simpl.
      constructor.
      * intros Hin.
        assert (Hids : ids = fst (MessageId.generate_ids (c + 1) ts)) by (rewrite G; reflexivity).
        rewrite Hids, MessageIdFacts.generate_ids_fst in Hin.
        apply in_map_iff in Hin as [[t' k] [E Hk]]. simpl in E.
        apply MessageIdFacts.combine_in_snd, MessageIdFacts.counters_above in Hk.
        apply MessageIdFacts.mk_id_inj in E as [_ E]. lia.
      * specialize (IH (c + 1)%N). rewrite G in IH. exact IH.
Qed.

(** ** Cancellation and the late result of the analysis call *)

Module Pipeline.
Import Unified Scenarios.

Lemma cancelAnalysis_resets (s : St) :
  analysisPhase (exec cancelAnalysis s) = APIdle /\
  estimate (exec cancelAnalysis s) = None /\
  elapsedTime (elapsed (exec cancelAnalysis s)) = 0%N.
Proof. repeat split. Qed.

Lemma runAnalysis_start_loading (s : St) :
  analysisPhase (snd (runAnalysis_start s)) = Analyzing /\
  isUnifiedLoading (snd (runAnalysis_start s)) = true.
Proof.
  unfold runAnalysis_start. cbn.
  destruct (truthy_url (pendingUrl s)); [destruct (is_figma s0)|]; split; reflexivity.
Qed.

End Pipeline.

(** C1. Cancelling during [analyzing] resets the phase, the estimate and
    the stopwatch at once, but [cancelAnalysis] neither aborts the pending
    [/api/ask] call nor invalidates its continuation: when the call later
    succeeds, [runAnalysis] appends its completion message to the
    transcript and calls [onAnalysisComplete]. *)
Theorem cancelAnalysis_late_success :
  let s2 := Unified.exec Unified.cancelAnalysis Scenarios.analyzing in
  let s3 := Unified.exec (Unified.runAnalysis_settle Scenarios.analyzing_pending
                    (Unified.FetchResponse true 200 Scenarios.report_ok)) s2 in
  Unified.analysisPhase Scenarios.analyzing = Unified.Analyzing /\
  Unified.analysisPhase s2 = Unified.APIdle /\ Unified.estimate s2 = None /\
  Unified.elapsedTime (Unified.elapsed s2) = 0%N /\
  List.length (Unified.messages s3) = S (List.length (Unified.messages s2)) /\
  List.length (Unified.completions s3) = S (List.length (Unified.completions s2)) /\
  Unified.files s3 = [].
Proof. vm_compute. repeat split. Qed.

(** C2, as stated: a second [submit] while [analyzing] issues no request
    and appends nothing. It fails on the session [analyzing], where the
    image is still attached and the context complete. *)
Lemma submit_while_analyzing_not_noop :
  ~ (forall (s : Unified.St) tok est reply,
       Unified.analysisPhase s = Unified.Analyzing ->
       Unified.requests (Unified.exec (Unified.submit tok est reply) s) = Unified.requests s /\
       Unified.messages (Unified.exec (Unified.submit tok est reply) s) = Unified.messages s).
Proof.
  intros H.
  destruct (H Scenarios.analyzing "tok" Scenarios.est_ok Scenarios.reply_ok)
    as [E _]; [vm_compute; reflexivity|].
  vm_compute in E. discriminate E.
Qed.

(** C2, amended. [submit] has no Analysis Phase guard: whatever the phase,
    [analyzing] included, a submit with files attached and a complete
    context appends transcript entries, issues one estimate request and
    moves the pipeline back to [previewing]. What keeps a second request
    from starting is the presentation layer, which disables submission
    while [isLoading]; [runAnalysis] sets it on entering [analyzing]. *)
Theorem submit_has_no_phase_guard :
  (forall (s : Unified.St) tok est reply,
     tok <> "" ->
     Unified.contextGatheringPhase s = Unified.CGIdle ->
     (Unified.detectedMode s = Unified.MAnalysis \/ Unified.detectedMode s = Unified.MHybrid) ->
     Unified.hasFullContext (Unified.users s) (Unified.expertise s)
       (Unified.tasks s) (Unified.format s) = true ->
     let s' := Unified.exec (Unified.submit tok est reply) s in
     (exists extra, Unified.messages s' = (Unified.messages s ++ extra)%list /\ extra <> []) /\
     Unified.requests s' = (Unified.requests s ++ [Unified.ReqEstimate (Unified.files s)])%list /\
     Unified.analysisPhase s' = Unified.Previewing) /\
  (forall s : Unified.St,
     Unified.analysisPhase (snd (Unified.runAnalysis_start s)) = Unified.Analyzing /\
     Unified.isUnifiedLoading (snd (Unified.runAnalysis_start s)) = true).
Proof.
  split; [|apply Pipeline.runAnalysis_start_loading].
  intros s tok est reply Htok Hcg Hmode Hctx s'. subst s'.
  apply String.eqb_neq in Htok.
  unfold Unified.exec, Unified.submit. rewrite Htok. cbn [Unified.bind Unified.get].
  rewrite Hcg.
  destruct Hmode as [Hm|Hm]; rewrite Hm; cbn; rewrite Hctx;
    destruct est; cbn; try rewrite <- app_assoc;
    (split; [eexists; split; [reflexivity|discriminate]|split; reflexivity]).
Qed.

Lemma submit_has_no_phase_guard_witness :
  Unified.analysisPhase Scenarios.analyzing = Unified.Analyzing /\
  Unified.requests (Unified.exec (Unified.submit "tok" Scenarios.est_ok Scenarios.reply_ok)
                      Scenarios.analyzing) =
  (Unified.requests Scenarios.analyzing ++
   [Unified.ReqEstimate (Unified.files Scenarios.analyzing)])%list.
Proof.
  split; [vm_compute; reflexivity|].
  refine (proj1 (proj2 (proj1 submit_has_no_phase_guard Scenarios.analyzing "tok"
                          Scenarios.est_ok Scenarios.reply_ok _ _ _ _))).
  - discriminate.
  - vm_compute; reflexivity.
  - left; vm_compute; reflexivity.
  - vm_compute; reflexivity.
Defined.

(** ** Context gathering *)

(** C3, as stated: every reply shorter than the question's minimum is
    answered by the guidance re-prompt. A blank reply is not: [submit]
    returns before appending anything. *)
Lemma gather_blank_reply_no_reprompt :
  ~ (forall (s : Unified.St) tok est reply,
       tok <> "" ->
       Unified.is_asking (Unified.contextGatheringPhase s) = true ->
       Unified.min_len (Unified.min_for (Unified.contextGatheringPhase s))
         (Js.trim (Unified.inputText s)) = false ->
       exists e, hd_error (List.rev (Unified.messages (Unified.exec (Unified.submit tok est reply) s))) = Some e /\
                 Unified.role e = Unified.System /\
                 Unified.content e = Unified.reprompt_text (Unified.contextGatheringPhase s)).
Proof.
  intros H.
  destruct (H (Scenarios.gathering Unified.AskingUsers "   ") "tok" Scenarios.est_ok
              Scenarios.reply_ok) as [e [E _]];
    [discriminate | reflexivity | vm_compute; reflexivity |].
  vm_compute in E. discriminate E.
Qed.

Arguments Unified.min_len : simpl never.
Arguments Js.trim : simpl never.

(** C3, amended. In each of the four gathering states, a reply whose
    trimmed length is below the question's minimum leaves the phase and
    the four context fields unchanged. A non-blank such reply is echoed as
    a user entry and answered by the question's guidance re-prompt; a
    blank one is ignored ([submit] returns before touching the state). *)
Theorem gather_short_reply_keeps_state (s : Unified.St) tok est reply :
  tok <> "" ->
  Unified.is_asking (Unified.contextGatheringPhase s) = true ->
  Unified.min_len (Unified.min_for (Unified.contextGatheringPhase s))
    (Js.trim (Unified.inputText s)) = false ->
  let s' := Unified.exec (Unified.submit tok est reply) s in
  Unified.contextGatheringPhase s' = Unified.contextGatheringPhase s /\
  Unified.users s' = Unified.users s /\ Unified.expertise s' = Unified.expertise s /\
  Unified.tasks s' = Unified.tasks s /\ Unified.format s' = Unified.format s /\
  (Js.trim (Unified.inputText s) = "" -> s' = s) /\
  (Js.trim (Unified.inputText s) <> "" ->
   exists i1 i2,
     Unified.messages s' =
     (Unified.messages s ++
      [Unified.mkMsg i1 Unified.User (Js.trim (Unified.inputText s)) Unified.ModeAnalysis
         None (Unified.clock s) None;
       Unified.mkMsg i2 Unified.System
         (Unified.reprompt_text (Unified.contextGatheringPhase s)) Unified.ModeAnalysis
         None (Unified.clock s) None])%list).
Proof.
  intros Htok Hask Hshort s'. subst s'.
  apply String.eqb_neq in Htok.
  unfold Unified.exec, Unified.submit. rewrite Htok. cbn [Unified.bind Unified.get].
  destruct (Unified.contextGatheringPhase s) eqn:Hp; try discriminate Hask;
  destruct (String.eqb_spec (Js.trim (Unified.inputText s)) "") as [Eb|Eb];
  cbn in *; try rewrite Hshort; cbn;
  (repeat split; try reflexivity; try congruence;
   intros; eexists; eexists; rewrite <- app_assoc; reflexivity).
Qed.

Lemma gather_short_reply_keeps_state_witness :
  Unified.min_len 10 (Js.trim "too short") = false /\
  Unified.contextGatheringPhase
    (Unified.exec (Unified.submit "tok" Scenarios.est_ok Scenarios.reply_ok)
       (Scenarios.gathering Unified.AskingUsers "too short")) = Unified.AskingUsers.
Proof.
  split; [vm_compute; reflexivity|].
  exact (proj1 (gather_short_reply_keeps_state
                  (Scenarios.gathering Unified.AskingUsers "too short") "tok"
                  Scenarios.est_ok Scenarios.reply_ok
                  ltac:(discriminate) ltac:(reflexivity) ltac:(vm_compute; reflexivity))).
Defined.

Arguments Js.includes : simpl never.

(** C6. The gathering machine only moves forward: from a question, any
    reply leaves it on that question or moves it to the next one
    (users, expertise, tasks, format, then back to [idle]); a passing
    reply stores the answer in the question's field and moves exactly one
    step; after the format answer [submit] itself runs the estimation
    step (one estimate request, the pipeline reaching [previewing]). *)
Theorem gather_advances_in_order (s : Unified.St) tok est reply :
  let p := Unified.contextGatheringPhase s in
  let s' := Unified.exec (Unified.submit tok est reply) s in
  (Unified.is_asking p = true ->
   Unified.contextGatheringPhase s' = p \/ Unified.contextGatheringPhase s' = Unified.cg_next p) /\
  (tok <> "" -> Unified.is_asking p = true ->
   Unified.min_len (Unified.min_for p) (Js.trim (Unified.inputText s)) = true ->
   Unified.contextGatheringPhase s' = Unified.cg_next p /\
   Unified.field_of p s' = Js.trim (Unified.inputText s) /\
   (p = Unified.AskingFormat ->
    Unified.analysisPhase s' = Unified.Previewing /\
    exists r, Unified.requests s' = (Unified.requests s ++ [r])%list /\
              Unified.is_estimate_request r = true)).
Proof.
  intros p s'. subst p s'.
  unfold Unified.exec, Unified.submit.
  destruct (String.eqb_spec tok "") as [Ht|Ht].
  - split; [intros; left; reflexivity | intros H; contradiction].
  - cbn [Unified.bind Unified.get].
    destruct (Unified.contextGatheringPhase s) eqn:Hp;
      try (split; intros; discriminate).
    all: destruct (String.eqb_spec (Js.trim (Unified.inputText s)) "") as [Eb|Eb];
      [ split; [intros; left; assumption
               | intros _ _ Hl; rewrite Eb in Hl; vm_compute in Hl; discriminate Hl]
      | ].
    all: destruct (Unified.min_len (Unified.min_for (Unified.contextGatheringPhase s))
                     (Js.trim (Unified.inputText s))) eqn:Hl;
      rewrite Hp in Hl; cbn in Hl; cbn; rewrite Hl; cbn.
    all: try (split; [intros; left; assumption | intros _ _ Hf; discriminate Hf]).
    all: try (split; [intros; right; reflexivity
                     | intros _ _ _; split; [reflexivity|split; [reflexivity|discriminate]]]).
    all: unfold Unified.detect_content_type;
      repeat match goal with |- context [if ?b then _ else _] => destruct b end;
      cbn;
      destruct (Unified.truthy_url (Unified.pendingUrl s)) as [u|];
      try destruct (Unified.is_figma u); destruct est; cbn;
      (split; [intros; right; reflexivity
              | intros _ _ _; split; [reflexivity|split; [reflexivity|]];
                intros _; split; [reflexivity|eexists; split; [reflexivity|reflexivity]]]).
Qed.

Lemma gather_advances_in_order_witness :
  Unified.min_len 10 (Js.trim "Mobile app screenshot") = true /\
  Unified.contextGatheringPhase
    (Unified.exec (Unified.submit "tok" Scenarios.est_ok Scenarios.reply_ok)
       (Scenarios.gathering Unified.AskingFormat "Mobile app screenshot")) = Unified.CGIdle /\
  Unified.analysisPhase
    (Unified.exec (Unified.submit "tok" Scenarios.est_ok Scenarios.reply_ok)
       (Scenarios.gathering Unified.AskingFormat "Mobile app screenshot")) = Unified.Previewing.
Proof.
  split; [vm_compute; reflexivity|].
  destruct (proj2 (gather_advances_in_order
                     (Scenarios.gathering Unified.AskingFormat "Mobile app screenshot") "tok"
                     Scenarios.est_ok Scenarios.reply_ok)
              ltac:(discriminate) ltac:(reflexivity) ltac:(vm_compute; reflexivity))
    as [Hcg [_ Hfmt]].
  split; [exact Hcg|].
  exact (proj1 (Hfmt eq_refl)).
Defined.

(** ** Estimation *)

(** C4. When the estimate call fails, one [startEstimation] step still
    reaches [previewing] with a fallback estimate, fixed per target
    (Figma file, website, or the attached files, single or multi image),
    after appending one diagnostic system message. *)
Theorem estimate_failure_falls_back (s : Unified.St) (urlToAnalyze : option string) (msg : string) :
  let s' := Unified.exec (Unified.startEstimation urlToAnalyze (Unified.Err msg)) s in
  Unified.analysisPhase s' = Unified.Previewing /\
  Unified.estimate s' =
    Some (match Unified.truthy_url urlToAnalyze with
          | Some u => if Unified.is_figma u then Unified.EstFigma Unified.fallback_figma
                      else Unified.EstUrl (Unified.fallback_url u)
          | None => Unified.EstFiles (Unified.fallback_files (Unified.files s))
          end) /\
  (exists i, Unified.messages s' =
     (Unified.messages s ++
      [Unified.mkMsg i Unified.System
         ("Could not get estimate: " ++ msg ++ ". " ++ Unified.estimate_hint)
         Unified.ModeAnalysis None (Unified.clock s) None])%list) /\
  Unified.isUnifiedLoading s' = false.
Proof.
  intros s'. subst s'. unfold Unified.exec, Unified.startEstimation. cbn.
  destruct (Unified.truthy_url urlToAnalyze) as [u|]; cbn;
    [destruct (Unified.is_figma u); cbn|];
    (split; [reflexivity|split; [reflexivity|split; [eexists; reflexivity|reflexivity]]]).
Qed.

(** ** The mode classifier *)

(** C5, as stated: with files attached and the context complete the
    classifier returns [analysis]. The URL rules come first, so a text
    that is a website address yields [url] instead. *)
Lemma detectMode_url_before_files :
  ~ (forall text fs u e t f,
       fs <> [] -> Unified.hasFullContext u e t f = true ->
       Unified.detectMode text fs u e t f (Unified.extractUrl text) = Unified.MAnalysis).
Proof.
  intros H.
  specialize (H "https://example.com" [Scenarios.png] "Adults looking to stream movies"
                "Novices" "Find and play a movie" "Mobile app screenshot").
  assert (E : Unified.detectMode "https://example.com" [Scenarios.png]
                "Adults looking to stream movies" "Novices" "Find and play a movie"
                "Mobile app screenshot" (Unified.extractUrl "https://example.com") = Unified.MUrl)
    by (vm_compute; reflexivity).
  rewrite H in E; [discriminate E | discriminate | vm_compute; reflexivity].
Qed.

(** C5, amended. With files attached and all four context fields at
    their minimum length, the classifier never returns [hybrid]: it
    returns [analysis], unless the detected URL is classified by the URL
    rules, which are evaluated first and then decide [figma] or [url]. *)
Theorem detectMode_files_complete text fs u e t f (detectedUrl : option string) :
  fs <> [] -> Unified.hasFullContext u e t f = true ->
  Unified.detectMode text fs u e t f detectedUrl =
    match Unified.obind (Unified.truthy_url detectedUrl) Unified.detectUrlType with
    | Some Unified.UFigma => Unified.MFigma
    | Some Unified.UUrl => Unified.MUrl
    | None => Unified.MAnalysis
    end /\
  Unified.detectMode text fs u e t f detectedUrl <> Unified.MHybrid.
Proof.
  intros Hfs Hctx.
  assert (Hm : Unified.detectMode text fs u e t f detectedUrl =
    match Unified.obind (Unified.truthy_url detectedUrl) Unified.detectUrlType with
    | Some Unified.UFigma => Unified.MFigma
    | Some Unified.UUrl => Unified.MUrl
    | None => Unified.MAnalysis
    end).
  { unfold Unified.detectMode.
    destruct fs as [|x fs]; [contradiction|]. cbn [List.length Nat.ltb Nat.leb].
    rewrite Hctx.
    destruct (Js.nonblank text), (Unified.truthy_url detectedUrl) as [v|]; cbn;
      try destruct (Unified.detectUrlType v) as [[|]|]; reflexivity. }
  split; [exact Hm|]. rewrite Hm.
  destruct (Unified.obind (Unified.truthy_url detectedUrl) Unified.detectUrlType) as [[|]|];
    discriminate.
Qed.

Lemma detectMode_files_complete_witness :
  Unified.detectMode "" [Scenarios.png] "Adults looking to stream movies" "Novices"
    "Find and play a movie" "Mobile app screenshot" (Unified.extractUrl "") = Unified.MAnalysis.
Proof.
  exact (proj1 (detectMode_files_complete "" [Scenarios.png] "Adults looking to stream movies"
                  "Novices" "Find and play a movie" "Mobile app screenshot"
                  (Unified.extractUrl "") ltac:(discriminate) ltac:(vm_compute; reflexivity))).
Defined.

(** ** Failures of the analysis call *)

Module Failures.
Import Unified.

(** When the client function throws (timeout, transport error, non-OK
    HTTP response, or for Figma and website targets [success: false]),
    the [catch] block appends one system message, returns to [idle] with
    no estimate and keeps the four context fields. *)
Lemma analysis_rejection_resets (p : Pending) (f : FetchResult) (s : St) (msg : string) :
  match pd_url p with
  | Some u => if is_figma u then analyzeFigma_outcome f else analyzeUrl_outcome f
  | None => unifiedAsk_outcome f
  end = Err msg ->
  let s' := exec (runAnalysis_settle p f) s in
  analysisPhase s' = APIdle /\ estimate s' = None /\ isUnifiedLoading s' = false /\
  users s' = users s /\ expertise s' = expertise s /\ tasks s' = tasks s /\
  format s' = format s /\ files s' = files s /\
  exists i, messages s' =
    (messages s ++ [mkMsg i System ("Analysis failed: " ++ msg) ModeAnalysis None (clock s) None])%list.
Proof.
  intros H s'. subst s'. unfold exec, runAnalysis_settle.
  destruct (pd_url p) as [u|]; [destruct (is_figma u)|]; rewrite H; cbn;
    repeat split; eexists; reflexivity.
Qed.

End Failures.

(** C7. The application-reported failure of a file analysis is not
    surfaced: [unifiedAsk] throws on a non-OK response only, not on an
    HTTP 200 body with [success: false] as [analyzeImage], [analyzeFigma]
    and [analyzeUrl] do, so [runAnalysis] takes the success path: it
    reports the analysis as completed, calls [onAnalysisComplete] and
    clears the attached files, and appends no failure message. *)
Theorem analysis_reported_failure_completes :
  let s' := Unified.exec (Unified.runAnalysis_settle Scenarios.analyzing_pending
                            (Unified.FetchResponse true 200 Scenarios.report_failed))
              Scenarios.analyzing in
  Unified.ab_success Scenarios.report_failed = false /\
  map Unified.content (Unified.messages s') =
    (map Unified.content (Unified.messages Scenarios.analyzing) ++
     ["Analysis completed for a.png. View the full report above."])%list /\
  Unified.analysisPhase s' = Unified.APIdle /\
  Unified.files s' = [] /\
  List.length (Unified.completions s') = S (List.length (Unified.completions Scenarios.analyzing)).
Proof. vm_compute. repeat split. Qed.

(** C8. Default timeouts of the client functions: chat 60 s, single image
    120 s, multi-image 600 s, website 600 s, video 900 s, Figma 1800 s;
    video, multi-image, website and Figma analysis each have a larger
    default than single-image analysis and chat; and every request that
    the estimation step issues is an estimate request armed with 30 s. *)
Theorem default_timeouts_per_operation :
  Unified.default_timeout Unified.OpSendChatMessage = 60000%Z /\
  Unified.default_timeout Unified.OpAnalyzeImage = 120000%Z /\
  Unified.default_timeout Unified.OpAnalyzeMultiImage = 600000%Z /\
  Unified.default_timeout Unified.OpAnalyzeUrl = 600000%Z /\
  Unified.default_timeout Unified.OpAnalyzeVideo = 900000%Z /\
  Unified.default_timeout Unified.OpAnalyzeFigma = 1800000%Z /\
  Forall (fun big =>
    Forall (fun small => (Unified.default_timeout small < Unified.default_timeout big)%Z)
      [Unified.OpAnalyzeImage; Unified.OpSendChatMessage])
    [Unified.OpAnalyzeVideo; Unified.OpAnalyzeMultiImage; Unified.OpAnalyzeUrl;
     Unified.OpAnalyzeFigma] /\
  (forall urlToAnalyze out s,
     exists r,
       Unified.requests (Unified.exec (Unified.startEstimation urlToAnalyze out) s) =
         (Unified.requests s ++ [r])%list /\
       Unified.request_timeout r = 30000%Z).
Proof.
  split; [reflexivity|]. split; [reflexivity|]. split; [reflexivity|].
  split; [reflexivity|]. split; [reflexivity|]. split; [reflexivity|].
  split.
  - repeat constructor.
  - intros u out s. unfold Unified.exec, Unified.startEstimation. cbn.
    destruct (Unified.truthy_url u) as [v|];
      [destruct (Unified.is_figma v)|]; destruct out; cbn;
      eexists; split; reflexivity.
Qed.

Module HistoryFacts.




End HistoryFacts.



(* ================================================================== *)
(** * Further properties of the hooks, the history service and the
      input components *)

Module ElapsedFacts.

Fixpoint no_char (ch : ascii) (s : string) : bool :=
  match s with
  | EmptyString => true
  | String c r => negb (Ascii.eqb c ch) && no_char ch r
  end.

Lemma no_char_app (ch : ascii) (x y : string) :
  no_char ch (x ++ y) = no_char ch x && no_char ch y.
Proof. induction x as [|c x IH]; simpl; [reflexivity|]. rewrite IH, andb_assoc. reflexivity. Qed.

Lemma uint_no_m (d : uint) : no_char "m" (Js.uint_to_string d) = true.
Proof. induction d; simpl; auto. Qed.

Lemma uint_no_s (d : uint) : no_char "s" (Js.uint_to_string d) = true.
Proof. induction d; simpl; auto. Qed.

Lemma show_no_m (n : N) : no_char "m" (Js.show_N n) = true.
Proof. apply uint_no_m. Qed.

Lemma show_no_s (n : N) : no_char "s" (Js.show_N n) = true.
Proof. apply uint_no_s. Qed.

Lemma split_at_char (ch : ascii) (a a' b b' : string) :
  no_char ch a = true -> no_char ch a' = true ->
  a ++ String ch b = a' ++ String ch b' -> a = a' /\ b = b'.
Proof.
  revert a'. induction a as [|c a IH]; intros a' Ha Ha' E; destruct a' as [|c' a']; simpl in *.
  - inversion E; auto.
  - inversion E; subst. rewrite Ascii.eqb_refl in Ha'. discriminate.
  - inversion E; subst. rewrite Ascii.eqb_refl in Ha. discriminate.
  - apply andb_prop in Ha as [_ Ha]. apply andb_prop in Ha' as [_ Ha'].
    inversion E; subst. destruct (IH a' Ha Ha' H1) as [-> ->]. auto.
Qed.

Lemma show_secs_inj (a b : N) : Js.show_N a ++ "s" = Js.show_N b ++ "s" -> a = b.
Proof.
  intros E. apply split_at_char in E as [E _]; try apply show_no_s.
  apply MessageIdFacts.show_N_inj, E.
Qed.

End ElapsedFacts.

(** X1. [formatElapsedTime] is injective: two different second counts are never displayed as the same text (["1m 5s"], ["45s"]). *)
Theorem formatElapsedTime_injective (a b : N) :
  Stopwatch.formatElapsedTime a = Stopwatch.formatElapsedTime b -> a = b.
Proof.
  unfold Stopwatch.formatElapsedTime. intros E.
  assert (Da := N.div_mod a 60 ltac:(discriminate)). assert (Db := N.div_mod b 60 ltac:(discriminate)).
  destruct (0 <? a / 60)%N eqn:Ha, (0 <? b / 60)%N eqn:Hb.
  - simpl in E. apply ElapsedFacts.split_at_char in E as [E1 E2]; try apply ElapsedFacts.show_no_m.
    inversion E2 as [E3]. apply ElapsedFacts.show_secs_inj in E3.
    apply MessageIdFacts.show_N_inj in E1. lia.
  - exfalso. assert (F := f_equal (ElapsedFacts.no_char "m") E).
    rewrite !ElapsedFacts.no_char_app, !ElapsedFacts.show_no_m in F. simpl in F. discriminate.
  - exfalso. assert (F := f_equal (ElapsedFacts.no_char "m") E).
    rewrite !ElapsedFacts.no_char_app, !ElapsedFacts.show_no_m in F. simpl in F. discriminate.
  - apply ElapsedFacts.show_secs_inj in E.
    apply N.ltb_ge, N.le_0_r in Ha. apply N.ltb_ge, N.le_0_r in Hb. rewrite Da, Db, Ha, Hb, E. reflexivity.
Qed.

Lemma formatElapsedTime_injective_witness :
  Stopwatch.formatElapsedTime 75 = Stopwatch.formatElapsedTime 75 /\ (75 = 75)%N.
Proof. split; [reflexivity|]. apply formatElapsedTime_injective. reflexivity. Defined.

Module StopwatchFacts.
Import Unified.

Lemma exec_seq (m k : M unit) (s : St) :
  exec (bind m (fun _ => k)) s = exec k (exec m s).
Proof. unfold exec, bind. destruct (m s) as [[] s']. reflexivity. Qed.

Lemma tick_at_elapsed (t : N) (s : St) :
  elapsed (exec (Stopwatch.tick_at t) s) =
    if isRunning (elapsed s) then
      match startTime (elapsed s) with
      | Some t0 => mkElapsed ((t - t0) / 1000)%N true (Some t0)
      | None => elapsed s
      end
    else elapsed s.
Proof.
  unfold Stopwatch.tick_at, exec, bind, elapsed_tick, set_clock, get, ret. cbn.
  destruct (elapsed s) as [e r st]. cbn. destruct r; [destruct st|]; reflexivity.
Qed.

Lemma ticks_running (ts : list N) (s : St) (t0 : N) :
  isRunning (elapsed s) = true -> startTime (elapsed s) = Some t0 ->
  elapsed (exec (Stopwatch.ticks ts) s) =
    match ts with
    | [] => elapsed s
    | _ => mkElapsed ((last ts 0%N - t0) / 1000)%N true (Some t0)
    end.
Proof.
  revert s. induction ts as [|t ts IH]; intros s Hr Hs; [reflexivity|].
  cbn [Stopwatch.ticks]. rewrite exec_seq.
  assert (E : elapsed (exec (Stopwatch.tick_at t) s) = mkElapsed ((t - t0) / 1000)%N true (Some t0)).
  { rewrite tick_at_elapsed, Hr, Hs. reflexivity. }
  rewrite (IH _ (f_equal isRunning E) (f_equal startTime E)).
  destruct ts; [exact E|reflexivity].
Qed.

Lemma ticks_stopped (ts : list N) (s : St) :
  isRunning (elapsed s) = false ->
  elapsed (exec (Stopwatch.ticks ts) s) = elapsed s.
Proof.
  revert s. induction ts as [|t ts IH]; intros s Hr; [reflexivity|].
  cbn [Stopwatch.ticks]. rewrite exec_seq.
  assert (E : elapsed (exec (Stopwatch.tick_at t) s) = elapsed s).
  { rewrite tick_at_elapsed, Hr. reflexivity. }
  rewrite IH; [exact E|]. rewrite E. exact Hr.
Qed.

End StopwatchFacts.

(** X2. After [start], interval ticks at clock readings not earlier than the start show the whole seconds elapsed between the start and the last tick, and the stopwatch keeps running. *)
Theorem stopwatch_measures_from_start (s : Unified.St) (ts : list N) :
  ts <> [] -> Forall (fun t => (Unified.clock s <= t)%N) ts ->
  let s' := Unified.exec (Unified.bind Unified.elapsed_start (fun _ => Stopwatch.ticks ts)) s in
  Unified.elapsed s' =
    Unified.mkElapsed ((last ts 0%N - Unified.clock s) / 1000)%N true (Some (Unified.clock s)).
Proof.
  intros Hne _ s'. subst s'. rewrite StopwatchFacts.exec_seq.
  rewrite (StopwatchFacts.ticks_running ts _ (Unified.clock s)); [|reflexivity|reflexivity].
  destruct ts; [congruence|reflexivity].
Qed.

Lemma stopwatch_measures_from_start_witness :
  [2500%N; 4100%N] <> [] /\ Forall (fun t => (Unified.clock (Unified.init_state 0 1000) <= t)%N) [2500%N; 4100%N] /\
  Unified.elapsed (Unified.exec (Unified.bind Unified.elapsed_start (fun _ => Stopwatch.ticks [2500%N; 4100%N]))
                     (Unified.init_state 0 1000)) = Unified.mkElapsed 3 true (Some 1000%N).
Proof.
  split; [discriminate|]. split; [repeat constructor; simpl; lia|].
  apply (stopwatch_measures_from_start (Unified.init_state 0 1000) [2500%N; 4100%N]);
    [discriminate|repeat constructor; simpl; lia].
Defined.

(** X3. Ticks after [stop] leave the stopped value unchanged; ticks after [reset] or [cancelAnalysis] leave the stopwatch at zero, stopped, with no start time. *)
Theorem stopwatch_frozen_after_stop (s : Unified.St) (ts : list N) :
  Unified.elapsed (Unified.exec (Unified.bind Unified.elapsed_stop (fun _ => Stopwatch.ticks ts)) s) =
    Unified.mkElapsed (Unified.elapsedTime (Unified.elapsed s)) false (Unified.startTime (Unified.elapsed s)) /\
  Unified.elapsed (Unified.exec (Unified.bind Unified.elapsed_reset (fun _ => Stopwatch.ticks ts)) s) =
    Unified.mkElapsed 0 false None /\
  Unified.elapsed (Unified.exec (Unified.bind Unified.cancelAnalysis (fun _ => Stopwatch.ticks ts)) s) =
    Unified.mkElapsed 0 false None.
Proof.
  rewrite !StopwatchFacts.exec_seq.
  split; [|split]; rewrite StopwatchFacts.ticks_stopped; reflexivity.
Qed.

(** X4. [sendMessage] either does nothing (blank message or no token) or appends exactly one user entry with the message and one assistant entry with the reply or the error text, with distinct ids, and ends with loading off and the error set from the outcome. *)
Theorem sendMessage_exchange (tok msg : string) (out : Unified.Outcome Unified.ChatApiResponse)
    (s : Unified.St) :
  let s' := Unified.exec (Unified.sendMessage tok msg out) s in
  ((Js.nonblank msg = false \/ tok = "") /\ s' = s) \/
  (Js.nonblank msg = true /\ tok <> "" /\
   exists u a,
     Unified.messages s' = (Unified.messages s ++ [u; a])%list /\
     Unified.role u = Unified.User /\ Unified.content u = msg /\
     Unified.role a = Unified.Assistant /\
     Unified.content a = match out with
                         | Unified.Ok r => Unified.cr_response r
                         | Unified.Err e => "Sorry, I encountered an error: " ++ e
                         end /\
     Unified.id u <> Unified.id a /\
     Unified.chatIsLoading s' = false /\
     Unified.chatError s' = match out with Unified.Ok _ => None | Unified.Err e => Some e end).
Proof.
  intros s'. subst s'. unfold Unified.exec, Unified.sendMessage.
  destruct (Js.nonblank msg) eqn:Hm; destruct (String.eqb_spec tok "") as [Ht|Ht]; cbn.
  - left. auto.
  - right. split; [reflexivity|]. split; [exact Ht|].
    destruct out as [r|e]; cbn; do 2 eexists; rewrite <- app_assoc;
      (split; [reflexivity|]); (split; [reflexivity|]); (split; [reflexivity|]);
      (split; [reflexivity|]); (split; [reflexivity|]);
      (split; [|split; reflexivity]);
      intros E; apply MessageIdFacts.mk_id_inj in E as [_ E]; lia.
  - left. auto.
  - left. auto.
Qed.

(** X5. A message sent right after [clearHistory] goes out with an empty conversation history, and the transcript then holds at most two entries. *)
Theorem clearHistory_empties_next_history (tok msg : string)
    (out : Unified.Outcome Unified.ChatApiResponse) (s : Unified.St) :
  let s' := Unified.exec (Unified.bind ChatHook.clearHistory
                            (fun _ => Unified.sendMessage tok msg out)) s in
  (List.length (Unified.messages s') <= 2)%nat /\
  (Unified.requests s' = Unified.requests s \/
   Unified.requests s' = (Unified.requests s ++ [Unified.ReqChat msg []])%list).
Proof.
  intros s'. subst s'. unfold Unified.exec, Unified.bind at 1. cbn -[Unified.sendMessage].
  unfold Unified.sendMessage.
  destruct (negb (Js.nonblank msg) || String.eqb tok ""); cbn.
  - split; [lia|left; reflexivity].
  - destruct out; cbn; (split; [lia|right; reflexivity]).
Qed.

(** X6. Adding an analysis report message never changes the conversation history sent with later chat messages. *)
Theorem report_message_leaves_history (html : string) (k : nat) (s : Unified.St) :
  html <> "" ->
  Unified.conversationHistory k
    (Unified.messages (Unified.exec (Unified.addAnalysisMessage html) s)) =
  Unified.conversationHistory k (Unified.messages s).
Proof.
  intros H. unfold Unified.conversationHistory, Unified.history_entries.
  assert (E : Unified.messages (Unified.exec (Unified.addAnalysisMessage html) s) =
              (Unified.messages s ++
               [Unified.mkMsg (fst (MessageId.generateId (Unified.messageIdCounter s) (Unified.clock s)))
                  Unified.Assistant "Analysis complete. Here are the results:"
                  Unified.ModeAnalysis None (Unified.clock s) (Some html)])%list).
  { reflexivity. }
  rewrite E, filter_app. cbn. unfold Unified.truthy.
  destruct (String.eqb_spec html "") as [|_]; [congruence|]. cbn. rewrite app_nil_r. reflexivity.
Qed.

Lemma report_message_leaves_history_witness :
  "<h1>R</h1>" <> "" /\
  Unified.conversationHistory 10
    (Unified.messages (Unified.exec (Unified.addAnalysisMessage "<h1>R</h1>") Scenarios.ready)) =
  Unified.conversationHistory 10 (Unified.messages Scenarios.ready).
Proof. split; [discriminate|]. apply report_message_leaves_history. discriminate. Defined.

Module AuthFacts.

Definition dots (s : string) : nat :=
  List.length (filter (fun c => Ascii.eqb c ".") (list_ascii_of_string s)).

Lemma split_dot_length (s : string) :
  List.length (Auth.split_dot s) = S (dots s).
Proof.
  unfold dots. induction s as [|c r IH]; [reflexivity|]. cbn.
  destruct (Ascii.eqb c "."); cbn; [rewrite IH; reflexivity|].
  destruct (Auth.split_dot r) as [|p ps]; cbn in *; [discriminate|]. exact IH.
Qed.

End AuthFacts.

(** X7. A token that does not split into exactly three dot-separated parts is ignored by [setToken] and by the standalone token effect: the auth state is unchanged. *)
Theorem setToken_ignores_malformed (decode : string -> Unified.Outcome Auth.Payload)
    (tok : string) (s : Auth.AuthState) :
  List.length (filter (fun c => Ascii.eqb c ".") (list_ascii_of_string tok)) <> 2%nat ->
  Auth.setToken decode tok s = s /\
  Auth.standalone_effect decode Auth.Standalone tok s = s.
Proof.
  intros H.
  assert (E : Auth.setToken decode tok s = s).
  { unfold Auth.setToken. rewrite AuthFacts.split_dot_length.
    destruct (Nat.eqb_spec (S (AuthFacts.dots tok)) 3); [|reflexivity].
    unfold AuthFacts.dots in *. lia. }
  split; [exact E|]. cbn. destruct (String.eqb tok ""); [reflexivity|exact E].
Qed.

Lemma setToken_ignores_malformed_witness :
  List.length (filter (fun c => Ascii.eqb c ".") (list_ascii_of_string "sk-live-key")) <> 2%nat /\
  Auth.setToken (fun _ => Unified.Err "bad") "sk-live-key" (Auth.init_auth Auth.Standalone) =
    Auth.init_auth Auth.Standalone /\
  Auth.standalone_effect (fun _ => Unified.Err "bad") Auth.Standalone "sk-live-key"
    (Auth.init_auth Auth.Standalone) = Auth.init_auth Auth.Standalone.
Proof.
  split; [cbn; discriminate|].
  apply setToken_ignores_malformed. cbn. discriminate.
Defined.

(** X8. A token of three dot-separated parts always authenticates; the user id and subscription come from the payload when it decodes, and are kept from before when it does not. *)
Theorem setToken_authenticates_three_parts (decode : string -> Unified.Outcome Auth.Payload)
    (tok : string) (s : Auth.AuthState) :
  List.length (filter (fun c => Ascii.eqb c ".") (list_ascii_of_string tok)) = 2%nat ->
  let s' := Auth.setToken decode tok s in
  Auth.isAuthenticated s' = true /\ Auth.token s' = Some tok /\ Auth.isLoading s' = false /\
  match decode (nth 1 (Auth.split_dot tok) "undefined") with
  | Unified.Ok p =>
      Auth.userId s' = Auth.or_null (Auth.p_userId p) /\
      Auth.hasSubscription s' = Auth.p_hasActiveSubscription p /\ Auth.error s' = None
  | Unified.Err _ =>
      Auth.userId s' = Auth.userId s /\ Auth.hasSubscription s' = Auth.hasSubscription s /\
      Auth.error s' = Auth.error s
  end.
Proof.
  intros H s'. subst s'. unfold Auth.setToken.
  rewrite AuthFacts.split_dot_length. unfold AuthFacts.dots. rewrite H. cbn.
  destruct (decode (nth 1 (Auth.split_dot tok) "undefined")); cbn; repeat split.
Qed.

Lemma setToken_authenticates_three_parts_witness :
  List.length (filter (fun c => Ascii.eqb c ".") (list_ascii_of_string "h.p.sig")) = 2%nat /\
  Auth.isAuthenticated (Auth.setToken (fun _ => Unified.Err "bad") "h.p.sig"
    (Auth.mkAuth true (Some "a.b.c") (Some "u1") true false None)) = true.
Proof.
  split; [reflexivity|].
  apply (setToken_authenticates_three_parts (fun _ => Unified.Err "bad") "h.p.sig"
           (Auth.mkAuth true (Some "a.b.c") (Some "u1") true false None)).
  reflexivity.
Defined.

(** X9. With an AJAX URL, the WordPress token fetch always ends with loading off, and either authenticates with a decodable token, or leaves the authentication, token and user id as they were and sets an error. *)
Theorem wordpress_fetch_settles (decode : string -> Unified.Outcome Auth.Payload)
    (ajaxUrl : string) (resp : Unified.Outcome Auth.WpBody) (s : Auth.AuthState) :
  ajaxUrl <> "" ->
  let s' := Auth.fetchWordPressToken decode Auth.Wordpress ajaxUrl resp s in
  Auth.isLoading s' = false /\
  ((exists d t p, resp = Unified.Ok d /\ Auth.wp_success d = true /\
     Auth.or_null (Auth.wp_token d) = Some t /\
     decode (nth 1 (Auth.split_dot t) "undefined") = Unified.Ok p /\
     Auth.isAuthenticated s' = true /\ Auth.token s' = Some t /\ Auth.error s' = None) \/
   (Auth.isAuthenticated s' = Auth.isAuthenticated s /\ Auth.token s' = Auth.token s /\
    Auth.userId s' = Auth.userId s /\ Auth.error s' <> None)).
Proof.
  intros H s'. subst s'. unfold Auth.fetchWordPressToken.
  destruct (String.eqb_spec ajaxUrl "") as [|_]; [congruence|].
  destruct resp as [d|msg]; cbn.
  - destruct (Auth.wp_success d) eqn:Hs; cbn.
    + destruct (Auth.or_null (Auth.wp_token d)) as [t|] eqn:Ht; cbn.
      * destruct (decode (nth 1 (Auth.split_dot t) "undefined")) as [p|m] eqn:Hd; cbn.
        -- split; [reflexivity|]. left. exists d, t, p. repeat split; assumption.
        -- split; [reflexivity|]. right. repeat split; discriminate.
      * split; [reflexivity|]. right. repeat split; discriminate.
    + split; [reflexivity|]. right. repeat split; discriminate.
  - split; [reflexivity|]. right. repeat split; discriminate.
Qed.

Lemma wordpress_fetch_settles_witness :
  "/wp-admin/admin-ajax.php" <> "" /\
  Auth.isLoading (Auth.fetchWordPressToken (fun _ => Unified.Err "bad") Auth.Wordpress
    "/wp-admin/admin-ajax.php" (Unified.Ok (Auth.mkWpBody true (Some "h.p.s") None))
    (Auth.init_auth Auth.Wordpress)) = false.
Proof.
  split; [discriminate|].
  apply (wordpress_fetch_settles (fun _ => Unified.Err "bad") "/wp-admin/admin-ajax.php"
           (Unified.Ok (Auth.mkWpBody true (Some "h.p.s") None)) (Auth.init_auth Auth.Wordpress)).
  discriminate.
Defined.

Module HistoryStoreFacts.
Import AnalysisHistory.

Lemma find_filter_neg {A} (p : A -> bool) (l : list A) :
  find p (filter (fun a => negb (p a)) l) = None.
Proof.
  induction l as [|a l IH]; cbn; [reflexivity|].
  destruct (p a) eqn:E; cbn; [exact IH|]. rewrite E. exact IH.
Qed.

Lemma filter_length_drop {A} (p : A -> bool) (l : list A) :
  (List.length (filter (fun a => negb (p a)) l) + List.length (filter p l) = List.length l)%nat.
Proof.
  induction l as [|a l IH]; cbn; [reflexivity|]. destruct (p a); cbn; lia.
Qed.

(** The stored list after a successful save. *)
Lemma save_shape {Stats} (fits : list (StoredAnalysis Stats) -> bool) now ts names stats html st st' :
  saveAnalysis Stats fits now ts names stats html st = Unified.Ok st' ->
  let e := mkStored (analysis_id now) ts names stats html in
  (fits (firstn 10 (e :: getAnalysisHistory Stats st)) = true /\
   getAnalysisHistory Stats st' = e :: firstn 9 (getAnalysisHistory Stats st)) \/
  (fits (firstn 10 (e :: getAnalysisHistory Stats st)) = false /\
   getAnalysisHistory Stats st' = e :: firstn 4 (getAnalysisHistory Stats st)).
Proof.
  unfold saveAnalysis, setItem, MAX_ENTRIES. cbv zeta.
  set (e := mkStored (analysis_id now) ts names stats html).
  set (old := getAnalysisHistory Stats st).
  rewrite !firstn_cons, firstn_firstn. cbn [Nat.min].
  destruct (fits (e :: firstn 9 old)) eqn:F1.
  - intros E. inversion E. left. split; reflexivity.
  - destruct (fits (e :: firstn 4 old)); intros E; inversion E. right. split; reflexivity.
Qed.

End HistoryStoreFacts.

(** X10. A successful [saveAnalysis] stores the new entry first, followed by the 9 (or, after a quota error, 4) newest previous entries; the history never exceeds 10 entries and the new entry is found by its id. *)
Theorem saveAnalysis_newest_first {Stats} (fits : list (AnalysisHistory.StoredAnalysis Stats) -> bool)
    (now : N) (timestamp : string) (fileNames : list string) (statistics : option Stats)
    (html : string) (st st' : option (AnalysisHistory.Slot Stats)) :
  AnalysisHistory.saveAnalysis Stats fits now timestamp fileNames statistics html st = Unified.Ok st' ->
  let e := AnalysisHistory.mkStored (AnalysisHistory.analysis_id now) timestamp fileNames statistics html in
  (exists k, (k = 9 \/ k = 4)%nat /\
     AnalysisHistory.getAnalysisHistory Stats st' = e :: firstn k (AnalysisHistory.getAnalysisHistory Stats st)) /\
  (List.length (AnalysisHistory.getAnalysisHistory Stats st') <= 10)%nat /\
  AnalysisHistory.getAnalysisById Stats (AnalysisHistory.analysis_id now) st' = Some e.
Proof.
  intros H e. apply HistoryStoreFacts.save_shape in H.
  assert (G : exists k, (k = 9 \/ k = 4)%nat /\
     AnalysisHistory.getAnalysisHistory Stats st' = e :: firstn k (AnalysisHistory.getAnalysisHistory Stats st)).
  { destruct H as [[_ H]|[_ H]]; [exists 9%nat|exists 4%nat]; auto. }
  split; [exact G|]. destruct G as [k [Hk G]].
  split.
  - rewrite G. cbn. rewrite length_firstn. lia.
  - unfold AnalysisHistory.getAnalysisById. rewrite G. cbn. rewrite String.eqb_refl. reflexivity.
Qed.

Lemma saveAnalysis_newest_first_witness :
  AnalysisHistory.saveAnalysis unit (fun _ => true) 1700000000000 "2024-01-01" ["a.png"] None "<h1/>" None =
    Unified.Ok (Some (AnalysisHistory.Json [AnalysisHistory.mkStored (AnalysisHistory.analysis_id 1700000000000)
                                             "2024-01-01" ["a.png"] None "<h1/>"])) /\
  AnalysisHistory.getAnalysisById unit (AnalysisHistory.analysis_id 1700000000000)
    (Some (AnalysisHistory.Json [AnalysisHistory.mkStored (AnalysisHistory.analysis_id 1700000000000)
                                  "2024-01-01" ["a.png"] None "<h1/>"])) =
    Some (AnalysisHistory.mkStored (AnalysisHistory.analysis_id 1700000000000) "2024-01-01" ["a.png"] None "<h1/>").
Proof.
  split; [reflexivity|].
  apply (saveAnalysis_newest_first (fun _ => true) 1700000000000 "2024-01-01" ["a.png"] None "<h1/>" None).
  reflexivity.
Defined.

(** X11. Two analyses saved in the same millisecond get the same id: a lookup returns only the later one, and deleting that id removes both. *)
Theorem same_millisecond_saves_share_id {Stats}
    (fits : list (AnalysisHistory.StoredAnalysis Stats) -> bool) (now : N)
    (ts1 ts2 : string) (n1 n2 : list string) (x1 x2 : option Stats) (h1 h2 : string)
    (st st1 st2 st3 : option (AnalysisHistory.Slot Stats)) :
  AnalysisHistory.saveAnalysis Stats fits now ts1 n1 x1 h1 st = Unified.Ok st1 ->
  AnalysisHistory.saveAnalysis Stats fits now ts2 n2 x2 h2 st1 = Unified.Ok st2 ->
  AnalysisHistory.deleteAnalysis Stats fits (AnalysisHistory.analysis_id now) st2 = Unified.Ok st3 ->
  AnalysisHistory.getAnalysisById Stats (AnalysisHistory.analysis_id now) st2 =
    Some (AnalysisHistory.mkStored (AnalysisHistory.analysis_id now) ts2 n2 x2 h2) /\
  AnalysisHistory.getAnalysisById Stats (AnalysisHistory.analysis_id now) st3 = None /\
  (List.length (AnalysisHistory.getAnalysisHistory Stats st3) + 2 <=
   List.length (AnalysisHistory.getAnalysisHistory Stats st2))%nat.
Proof.
  intros H1 H2 H3.
  destruct (saveAnalysis_newest_first fits now ts2 n2 x2 h2 st1 st2 H2) as [[k2 [Hk2 G2]] [_ L2]].
  destruct (saveAnalysis_newest_first fits now ts1 n1 x1 h1 st st1 H1) as [[k1 [Hk1 G1]] _].
  split; [exact L2|].
  unfold AnalysisHistory.deleteAnalysis, AnalysisHistory.setItem in H3.
  match type of H3 with
  | (if fits ?l then _ else _) = _ =>
      destruct (fits l); [injection H3 as <-|discriminate H3]
  end.
  split.
  - unfold AnalysisHistory.getAnalysisById. cbn.
    apply (HistoryStoreFacts.find_filter_neg
             (fun a => String.eqb (AnalysisHistory.sa_id Stats a) (AnalysisHistory.analysis_id now))).
  - cbn [AnalysisHistory.getAnalysisHistory].
    assert (C : (2 <= List.length (filter (fun a => String.eqb (AnalysisHistory.sa_id Stats a)
                   (AnalysisHistory.analysis_id now)) (AnalysisHistory.getAnalysisHistory Stats st2)))%nat).
    { rewrite G2, G1.
      destruct Hk2 as [-> | ->]; rewrite firstn_cons;
        cbn -[String.eqb AnalysisHistory.analysis_id firstn];
        rewrite !String.eqb_refl; cbn -[String.eqb AnalysisHistory.analysis_id firstn]; lia. }
    pose proof (HistoryStoreFacts.filter_length_drop
      (fun a => String.eqb (AnalysisHistory.sa_id Stats a) (AnalysisHistory.analysis_id now))
      (AnalysisHistory.getAnalysisHistory Stats st2)) as D.
    cbv beta in D. lia.
Qed.

Lemma same_millisecond_saves_share_id_witness :
  let st1 := Some (@AnalysisHistory.Json unit [AnalysisHistory.mkStored (AnalysisHistory.analysis_id 5) "t1" ["a.png"] None "r1"]) in
  let st2 := Some (@AnalysisHistory.Json unit [AnalysisHistory.mkStored (AnalysisHistory.analysis_id 5) "t2" ["b.png"] None "r2";
                                          AnalysisHistory.mkStored (AnalysisHistory.analysis_id 5) "t1" ["a.png"] None "r1"]) in
  AnalysisHistory.getAnalysisById unit (AnalysisHistory.analysis_id 5) (Some (@AnalysisHistory.Json unit [])) = None /\
  AnalysisHistory.getAnalysisById unit (AnalysisHistory.analysis_id 5) st2 =
    Some (AnalysisHistory.mkStored (AnalysisHistory.analysis_id 5) "t2" ["b.png"] None "r2").
Proof.
  intros st1 st2. split; [reflexivity|].
  apply (same_millisecond_saves_share_id (fun _ => true) 5 "t1" "t2" ["a.png"] ["b.png"] None None "r1" "r2"
           None st1 st2 (Some (@AnalysisHistory.Json unit []))); reflexivity.
Defined.

Module UploadFacts.
Import Upload.

(** The per-file conditions of the upload rules. *)
Definition file_ok (acceptVideo : bool) (f : UFile) : Prop :=
  mem (acceptedTypes acceptVideo) (uf_type f) = true /\
  (uf_size f <= if isVideo f then MAX_VIDEO_SIZE else MAX_IMAGE_SIZE)%N.

Lemma check_each_none (acceptVideo : bool) (fs : list UFile) :
  check_each acceptVideo fs = None <-> Forall (file_ok acceptVideo) fs.
Proof.
  induction fs as [|f fs IH]; cbn [check_each]; [split; auto|].
  unfold file_ok at 1.
  destruct (mem (acceptedTypes acceptVideo) (uf_type f)) eqn:Ht; cbn [negb].
  - destruct ((if isVideo f then MAX_VIDEO_SIZE else MAX_IMAGE_SIZE) <? uf_size f)%N eqn:Hs.
    + split; [intros Hc; discriminate Hc|]. intros F. apply Forall_cons_iff in F as [[_ Hle] _].
      apply N.ltb_lt in Hs. lia.
    + apply N.ltb_ge in Hs. rewrite IH. split.
      * intros F. constructor; auto.
      * intros F. apply Forall_cons_iff in F as [_ F]. exact F.
  - split; [intros Hc; discriminate Hc|]. intros F. apply Forall_cons_iff in F as [[Hm _] _]. congruence.
Qed.

Lemma filter_index_spec {A} (l : list A) (index i : nat) :
  filter_index l index i =
    if Nat.leb i index then (firstn (index - i) l ++ skipn (S (index - i)) l)%list else l.
Proof.
  revert i. induction l as [|x l IH]; intros i; cbn [filter_index].
  - destruct (Nat.leb i index), (index - i)%nat; reflexivity.
  - rewrite !IH. destruct (Nat.eqb_spec i index) as [->|Hne].
    + rewrite Nat.leb_refl, Nat.sub_diag.
      assert (E : Nat.leb (S index) index = false) by (apply Nat.leb_gt; lia).
      rewrite E. reflexivity.
    + destruct (Nat.leb i index) eqn:E1.
      * apply Nat.leb_le in E1.
        assert (E2 : Nat.leb (S i) index = true) by (apply Nat.leb_le; lia). rewrite E2.
        replace (index - i)%nat with (S (index - S i)) by lia. reflexivity.
      * apply Nat.leb_gt in E1.
        assert (E2 : Nat.leb (S i) index = false) by (apply Nat.leb_gt; lia). rewrite E2. reflexivity.
Qed.

Lemma substring_0_length (n : nat) (s : string) :
  (n <= String.length s)%nat -> String.length (substring 0 n s) = n.
Proof.
  revert s. induction n as [|n IH]; intros s H; [destruct s; reflexivity|].
  destruct s as [|c s]; cbn in H; [lia|].
  cbn. f_equal. apply IH. lia.
Qed.

End UploadFacts.

(** X12. [validateFiles] accepts a selection exactly when it has between 1 and [maxFiles] files, does not mix images and videos, has a single file if it holds a video, and every file has an accepted type and is within the size limit of its kind. *)
Theorem validateFiles_accepts_exactly (maxFiles : nat) (acceptVideo : bool)
    (fs : list Upload.UFile) :
  Upload.validateFiles maxFiles acceptVideo fs = None <->
  ((1 <= List.length fs <= maxFiles)%nat /\
   existsb Upload.isVideo fs && existsb Upload.isImage fs = false /\
   (existsb Upload.isVideo fs = true -> List.length fs = 1%nat) /\
   Forall (fun f => Upload.mem (Upload.acceptedTypes acceptVideo) (Upload.uf_type f) = true /\
                    (Upload.uf_size f <=
                       if Upload.isVideo f then Upload.MAX_VIDEO_SIZE else Upload.MAX_IMAGE_SIZE)%N) fs).
Proof.
  unfold Upload.validateFiles.
  destruct (Nat.eqb_spec (List.length fs) 0) as [E0|E0].
  { split; [intros Hc; discriminate Hc|]. intros [[H _] _]. lia. }
  destruct (Nat.ltb_spec maxFiles (List.length fs)) as [Em|Em].
  { split; [intros Hc; discriminate Hc|]. intros [[_ H] _]. lia. }
  destruct (existsb Upload.isVideo fs) eqn:Hv, (existsb Upload.isImage fs) eqn:Hi; cbn [andb].
  - split; [intros Hc; discriminate Hc|]. intros [_ [H _]]. discriminate.
  - destruct (Nat.ltb_spec 1 (List.length fs)) as [E1|E1].
    + split; [intros Hc; discriminate Hc|]. intros [_ [_ [H _]]]. specialize (H eq_refl). lia.
    + rewrite UploadFacts.check_each_none. split.
      * intros F. repeat split; auto; lia.
      * intros [_ [_ [_ F]]]. exact F.
  - rewrite UploadFacts.check_each_none. split.
    + intros F. repeat split; auto; try lia; try (intros Hc; discriminate Hc).
    + intros [_ [_ [_ F]]]. exact F.
  - rewrite UploadFacts.check_each_none. split.
    + intros F. repeat split; auto; try lia; try (intros Hc; discriminate Hc).
    + intros [_ [_ [_ F]]]. exact F.
Qed.

(** X13. Removing a file by index ([handleRemove], [removeFile]) drops exactly the file at that index and keeps the order of the others; an index past the end changes nothing, and [handleRemove] without an index clears the list. *)
Theorem handleRemove_drops_index (files : list Upload.UFile) (i : nat) :
  Upload.handleRemove files (Some i) = (firstn i files ++ skipn (S i) files)%list /\
  Upload.removeFile files i = (firstn i files ++ skipn (S i) files)%list /\
  Upload.handleRemove files None = [] /\
  (i < List.length files -> List.length (Upload.removeFile files i) = List.length files - 1)%nat /\
  (List.length files <= i -> Upload.removeFile files i = files)%nat.
Proof.
  assert (E : Upload.remove_at files i = (firstn i files ++ skipn (S i) files)%list).
  { unfold Upload.remove_at. rewrite UploadFacts.filter_index_spec. cbn. rewrite Nat.sub_0_r. reflexivity. }
  unfold Upload.removeFile. cbn. rewrite E.
  split; [reflexivity|]. split; [reflexivity|]. split; [reflexivity|]. split.
  - intros H. rewrite length_app, length_firstn, length_skipn. lia.
  - intros H. rewrite firstn_all2 by lia. rewrite skipn_all2 by lia. apply app_nil_r.
Qed.

Lemma handleRemove_drops_index_witness :
  List.length (Upload.removeFile [Upload.mkUFile "a.png" "image/png" 1; Upload.mkUFile "b.png" "image/png" 2] 0)
    = (2 - 1)%nat.
Proof.
  apply (handleRemove_drops_index [Upload.mkUFile "a.png" "image/png" 1; Upload.mkUFile "b.png" "image/png" 2] 0).
  cbn. lia.
Defined.


Module LabelFacts.

Lemma str_length_append (a b : string) :
  String.length (a ++ b) = (String.length a + String.length b)%nat.
Proof. induction a as [|c a IH]; cbn; [reflexivity|]. rewrite IH. reflexivity. Qed.

End LabelFacts.

(** X15. A file chip label is at most 20 characters long, and equals the file name exactly when the name has at most 20 characters. *)
Theorem chipLabel_at_most_20 (n : string) :
  String.length (Upload.chipLabel n) = Nat.min (String.length n) 20 /\
  (Upload.chipLabel n = n <-> (String.length n <= 20)%nat).
Proof.
  unfold Upload.chipLabel.
  destruct (Nat.ltb_spec 20 (String.length n)) as [H|H].
  - assert (L : String.length (substring 0 17 n ++ "...") = 20%nat).
    { rewrite LabelFacts.str_length_append, UploadFacts.substring_0_length by lia. reflexivity. }
    rewrite L. split; [lia|]. split; [|lia].
    intros E. rewrite <- E in H. rewrite L in H. lia.
  - split; [lia|]. tauto.
Qed.

(** X16. Once [runAnalysis] has started, the input reports loading, so Enter never submits and the send button is disabled. *)
Theorem analysis_blocks_submission (s : Unified.St) (key : string) (shiftKey : bool) :
  let s' := snd (Unified.runAnalysis_start s) in
  ChatHook.isLoading s' = true /\
  Upload.handleKeyDown key shiftKey (ChatHook.isLoading s') (Unified.detectedMode s') = false /\
  Upload.sendDisabled (ChatHook.isLoading s') (Unified.detectedMode s') = true.
Proof.
  intros s'.
  assert (L : ChatHook.isLoading s' = true).
  { unfold ChatHook.isLoading. subst s'.
    rewrite (proj2 (Pipeline.runAnalysis_start_loading s)). apply orb_true_r. }
  rewrite L. split; [reflexivity|].
  unfold Upload.handleKeyDown, Upload.sendDisabled. cbn.
  rewrite !andb_false_r. split; reflexivity.
Qed.

(** X17. A key press submits only when it is Enter without Shift and the send button is enabled. *)
Theorem handleKeyDown_only_when_enabled (key : string) (shiftKey isLoading : bool)
    (m : Unified.DetectedMode) :
  Upload.handleKeyDown key shiftKey isLoading m = true ->
  key = "Enter" /\ shiftKey = false /\ Upload.sendDisabled isLoading m = false.
Proof.
  unfold Upload.handleKeyDown, Upload.sendDisabled.
  intros H. apply andb_prop in H as [H H3]. apply andb_prop in H as [H H2].
  apply andb_prop in H as [H1 H1'].
  apply String.eqb_eq in H1. apply negb_true_iff in H1', H2, H3.
  rewrite H2, H3. auto.
Qed.

Lemma handleKeyDown_only_when_enabled_witness :
  Upload.handleKeyDown "Enter" false false Unified.MChat = true /\
  Upload.sendDisabled false Unified.MChat = false.
Proof.
  split; [reflexivity|].
  exact (proj2 (proj2 (handleKeyDown_only_when_enabled "Enter" false false Unified.MChat eq_refl))).
Defined.

(** X18. When the text holds no URL and the expertise answer has at least 5 characters, the four-question [detectMode] classifies input exactly as the three-field [detectMode] of [useUnifiedInput]. *)
Theorem detectMode_refines_legacy (text : string) (fs : list Unified.File)
    (u e t f : string) :
  Unified.extractUrl text = None -> Unified.min_len 5 e = true ->
  Unified.detectMode text fs u e t f (Unified.extractUrl text) = Legacy.detectMode text fs u t f.
Proof.
  intros Hu He. rewrite Hu.
  unfold Unified.detectMode, Legacy.detectMode, Unified.hasFullContext, Legacy.hasFullContext.
  rewrite He, andb_true_r. cbn [Unified.truthy_url].
  destruct (Unified.min_len 10 u); reflexivity.
Qed.

Lemma detectMode_refines_legacy_witness :
  Unified.detectMode "Hello" [Scenarios.png] "Adults buying shoes" "Novices" "Buy a pair of shoes"
    "Phone screenshot" (Unified.extractUrl "Hello") =
  Legacy.detectMode "Hello" [Scenarios.png] "Adults buying shoes" "Buy a pair of shoes"
    "Phone screenshot".
Proof.
  apply detectMode_refines_legacy; vm_compute; reflexivity.
Defined.

Module SubmitFacts.
Import Unified.







End SubmitFacts.




(** X20. [startEstimation] always ends in the preview with an estimate and loading off, having issued exactly one estimate request, whatever the outcome of the call; it records a truthy URL as the pending URL and keeps the context and files. *)
Theorem estimation_always_previews (s : Unified.St) (urlToAnalyze : option string)
    (out : Unified.Outcome Unified.UnifiedEstimate) :
  let s' := Unified.exec (Unified.startEstimation urlToAnalyze out) s in
  Unified.analysisPhase s' = Unified.Previewing /\
  Unified.isUnifiedLoading s' = false /\
  (exists e, Unified.estimate s' = Some e) /\
  (exists r, Unified.requests s' = (Unified.requests s ++ [r])%list /\
             Unified.is_estimate_request r = true) /\
  Unified.pendingUrl s' =
    match Unified.truthy_url urlToAnalyze with
    | Some u => Some u
    | None => Unified.pendingUrl s
    end /\
  Unified.users s' = Unified.users s /\ Unified.tasks s' = Unified.tasks s /\
  Unified.files s' = Unified.files s.
Proof.
  intros s'. subst s'. unfold Unified.exec, Unified.startEstimation.
  destruct (Unified.truthy_url urlToAnalyze) as [u|];
    [destruct (Unified.is_figma u) eqn:F|]; destruct out;
    cbn -[String.append]; rewrite ?F;
    repeat split; eexists; try (split; [reflexivity|]); reflexivity.
Qed.

(** X21. A successful analysis clears the input text, files, pending question and URL, returns to idle with no estimate, stops the stopwatch and loading, keeps the collected context, and issues no further request. *)
Theorem analysis_success_clears_inputs (p : Unified.Pending) (f : Unified.FetchResult)
    (s : Unified.St) (result : Unified.AskBody) :
  match Unified.pd_url p with
  | Some u => if Unified.is_figma u then Unified.analyzeFigma_outcome f
              else Unified.analyzeUrl_outcome f
  | None => Unified.unifiedAsk_outcome f
  end = Unified.Ok result ->
  let s' := Unified.exec (Unified.runAnalysis_settle p f) s in
  Unified.inputText s' = "" /\ Unified.files s' = [] /\ Unified.pendingQuestion s' = "" /\
  Unified.pendingUrl s' = None /\ Unified.analysisPhase s' = Unified.APIdle /\
  Unified.estimate s' = None /\ Unified.isUnifiedLoading s' = false /\
  Unified.isRunning (Unified.elapsed s') = false /\
  Unified.elapsedTime (Unified.elapsed s') = Unified.elapsedTime (Unified.elapsed s) /\
  Unified.users s' = Unified.users s /\ Unified.expertise s' = Unified.expertise s /\
  Unified.tasks s' = Unified.tasks s /\ Unified.format s' = Unified.format s /\
  Unified.contentType s' = Unified.contentType s /\
  Unified.requests s' = Unified.requests s.
Proof.
  intros H s'. subst s'. unfold Unified.exec, Unified.runAnalysis_settle.
  destruct (Unified.pd_url p) as [u|]; [destruct (Unified.is_figma u)|]; rewrite H;
    [destruct (Unified.ab_success result)|destruct (Unified.ab_success result)|
     destruct (Unified.ab_mode result)];
    cbn -[String.append]; repeat split.
Qed.

Lemma analysis_success_clears_inputs_witness :
  Unified.files (Unified.exec (Unified.runAnalysis_settle Scenarios.analyzing_pending
                   (Unified.FetchResponse true 200 Scenarios.report_ok)) Scenarios.analyzing) = [].
Proof.
  apply (analysis_success_clears_inputs Scenarios.analyzing_pending
           (Unified.FetchResponse true 200 Scenarios.report_ok) Scenarios.analyzing
           Scenarios.report_ok).
  vm_compute. reflexivity.
Defined.
